(** * CaramelBoard JoyTag bridge: a shallow embedding of
      [integrations/joytag/joytag_server.py] and the properties of its
      two routes, [/health] and [/api/v1/tag].

    Python values are modelled as the interpreter has them: [str] as a
    sequence of code points, [float] as IEEE binary64 and torch's
    [float32] as IEEE binary32 (both through [SpecFloat]), [dict] as an
    insertion-ordered association list with unique keys, exceptions as
    an error result.  What lives outside the file (PIL decoding and
    resampling, the JoyTag network, the file system, the network, the
    parser behind [float(str)]) is collected in the record [Externals]. *)

From Stdlib Require Import String Ascii.
From Stdlib Require Import ZArith NArith List Bool Lia.
From Stdlib Require Import Floats.SpecFloat.
Import ListNotations.

Local Open Scope Z_scope.
Local Set Warnings "-register-all".

(* ------------------------------------------------------------------ *)
(** ** Python strings *)

(** A Python [str] is a sequence of Unicode code points. *)
Definition pystr := list N.

(** ASCII literals of the source. *)
Definition py (s : string) : pystr :=
  map N_of_ascii (list_ascii_of_string s).

Fixpoint str_eqb (a b : pystr) : bool :=
  match a, b with
  | [], [] => true
  | x :: a', y :: b' => N.eqb x y && str_eqb a' b'
  | _, _ => false
  end.

(** [str.isspace] on one code point (bidirectional class WS, B or S, or
    category Zs). *)
Definition is_space (c : N) : bool :=
  ((9 <=? c) && (c <=? 13) || (28 <=? c) && (c <=? 32) || (c =? 133)
   || (c =? 160) || (c =? 5760) || (8192 <=? c) && (c <=? 8202)
   || (c =? 8232) || (c =? 8233) || (c =? 8239) || (c =? 8287)
   || (c =? 12288))%N.

(** The line boundaries of [str.splitlines]. *)
Definition is_linebreak (c : N) : bool :=
  ((10 <=? c) && (c <=? 13) || (28 <=? c) && (c <=? 30) || (c =? 133)
   || (c =? 8232) || (c =? 8233))%N.

Fixpoint lstrip (s : pystr) : pystr :=
  match s with
  | c :: s' => if is_space c then lstrip s' else s
  | [] => []
  end.

Definition rstrip (s : pystr) : pystr := rev (lstrip (rev s)).

(** [s.strip()] *)
Definition strip (s : pystr) : pystr := rstrip (lstrip s).

(** [s.splitlines()]: [cur] is the line being read, in reverse; CR LF is
    one boundary and no empty last line is produced. *)
Fixpoint splitlines_from (cur : pystr) (s : pystr) : list pystr :=
  match s with
  | [] => match cur with [] => [] | _ => [rev cur] end
  | c :: s' =>
      if is_linebreak c then
        match c, s' with
        | 13%N, 10%N :: s'' => rev cur :: splitlines_from [] s''
        | _, _ => rev cur :: splitlines_from [] s'
        end
      else splitlines_from (c :: cur) s'
  end.

Definition splitlines (s : pystr) : list pystr := splitlines_from [] s.

(** Decimal rendering of an [int], as [str(n)] and f-strings do. *)
Fixpoint digits_of (fuel : nat) (n : N) (acc : pystr) : pystr :=
  match fuel with
  | O => acc
  | S fuel' =>
      let acc' := (48 + n mod 10)%N :: acc in
      if (n <? 10)%N then acc' else digits_of fuel' (n / 10)%N acc'
  end.

Definition str_of_int (z : Z) : pystr :=
  let n := Z.to_N (Z.abs z) in
  let ds := digits_of (S (N.to_nat (N.log2 n))) n [] in
  if z <? 0 then 45%N :: ds else ds.

(* ------------------------------------------------------------------ *)
(** ** Floats *)

(** Python [float]: binary64. *)
Definition pyfloat := spec_float.
(** An element of a [torch.float32] tensor: binary32. *)
Definition f32 := spec_float.

Definition f64_round (s : bool) (m : positive) (e : Z) : pyfloat :=
  binary_round 53 1024 s m e.
Definition f32_round (s : bool) (m : positive) (e : Z) : f32 :=
  binary_round 24 128 s m e.

(** Re-rounding of a float to the other format; widening is exact. *)
Definition to_f64 (x : spec_float) : pyfloat :=
  match x with S754_finite s m e => f64_round s m e | _ => x end.
Definition to_f32 (x : spec_float) : f32 :=
  match x with S754_finite s m e => f32_round s m e | _ => x end.

(** [float(t[i])] on a float32 tensor element. *)
Definition float_of_f32 (x : f32) : pyfloat := to_f64 x.

(** A decimal literal [m]e[-k] of the source, read as a Python float:
    the correctly rounded quotient of two exactly representable
    integers. *)
Definition float_literal (m : Z) (k : Z) : pyfloat :=
  SFdiv 53 1024 (binary_normalize 53 1024 m 0 false)
                (binary_normalize 53 1024 (10 ^ k) 0 false).

(** [a >= b] on floats. *)
Definition float_ge (a b : pyfloat) : bool := SFleb b a.
(** [a == b] on floats. *)
Definition float_eq (a b : pyfloat) : bool := SFeqb a b.

Definition f32_sub : f32 -> f32 -> f32 := SFsub 24 128.
Definition f32_div : f32 -> f32 -> f32 := SFdiv 24 128.

(** [.float()] of a [uint8] tensor element. *)
Definition f32_of_uint8 (v : Z) : f32 := binary_normalize 24 128 v 0 false.

(* ------------------------------------------------------------------ *)
(** ** Exceptions and results *)

Record exn := Exn { exn_class : string; exn_msg : pystr }.

Inductive res (A : Type) : Type :=
| Ok (a : A)
| Err (e : exn).
Arguments Ok {A} a.
Arguments Err {A} e.

Definition res_bind {A B} (r : res A) (k : A -> res B) : res B :=
  match r with Ok a => k a | Err e => Err e end.

Declare Scope res_scope.
Delimit Scope res_scope with res.
Notation "x <- r ;; k" := (res_bind r (fun x => k))
  (at level 61, r at next level, right associativity) : res_scope.

(* ------------------------------------------------------------------ *)
(** ** Python objects that cross the HTTP boundary *)

Inductive pyval : Type :=
| PNone
| PBool (b : bool)
| PInt (z : Z)
| PFloat (f : pyfloat)
| PStr (s : pystr)
| PList (l : list pyval)
| PDict (d : list (pystr * pyval)).

(** [type(v).__name__] *)
Definition type_name (v : pyval) : pystr :=
  match v with
  | PNone => py "NoneType" | PBool _ => py "bool" | PInt _ => py "int"
  | PFloat _ => py "float" | PStr _ => py "str" | PList _ => py "list"
  | PDict _ => py "dict"
  end.

(** Truth value of an object, as [or] tests it. *)
Definition truthy (v : pyval) : bool :=
  match v with
  | PNone => false
  | PBool b => b
  | PInt z => negb (z =? 0)
  | PFloat f => negb (float_eq f (S754_zero false))
  | PStr s => match s with [] => false | _ => true end
  | PList l => match l with [] => false | _ => true end
  | PDict d => match d with [] => false | _ => true end
  end.

(** *** Dictionaries: insertion-ordered, one entry per key *)

Section Dict.
Context {V : Type}.

Definition dict := list (pystr * V).

Fixpoint dict_get (d : dict) (k : pystr) : option V :=
  match d with
  | [] => None
  | (k', v) :: d' => if str_eqb k' k then Some v else dict_get d' k
  end.

(** [k in d] *)
Definition dict_mem (d : dict) (k : pystr) : bool :=
  match dict_get d k with Some _ => true | None => false end.

(** [d[k] = v]: an existing key keeps its place, a new one goes last. *)
Fixpoint dict_set (d : dict) (k : pystr) (v : V) : dict :=
  match d with
  | [] => [(k, v)]
  | (k', v') :: d' =>
      if str_eqb k' k then (k', v) :: d' else (k', v') :: dict_set d' k v
  end.

(** [d.keys()], [d.items()] iterate in insertion order. *)
Definition dict_keys (d : dict) : list pystr := map fst d.
End Dict.
Arguments dict V : clear implicits.

(* ------------------------------------------------------------------ *)
(** ** Images and tensors *)

(** One RGB pixel, three bytes. *)
Definition rgb := (Z * Z * Z)%type.

(** A PIL image in mode RGB: [size] is (width, height), [rows] the
    pixel rows from top to bottom. *)
Record Image := mkImage { size : Z * Z; rows : list (list rgb) }.

Definition width (im : Image) : Z := fst (size im).
Definition height (im : Image) : Z := snd (size im).

(** The images PIL hands out: [height] rows of [width] pixels. *)
Definition image_wf (im : Image) : Prop :=
  Z.of_nat (length (rows im)) = height im /\
  Forall (fun r => Z.of_nat (length r) = width im) (rows im).

(** [im.getpixel((x, y))] *)
Definition getpixel (im : Image) (x y : Z) : option rgb :=
  if (x <? 0) || (y <? 0) then None
  else match nth_error (rows im) (Z.to_nat y) with
       | Some r => nth_error r (Z.to_nat x)
       | None => None
       end.

Definition white : rgb := (255, 255, 255).

(** [Image.new("RGB", (w, h), color)] *)
Definition Image_new (sz : Z * Z) (color : rgb) : Image :=
  mkImage sz (repeat (repeat color (Z.to_nat (fst sz))) (Z.to_nat (snd sz))).

(** Overwrite [dst] from position [off] on with the elements of [src],
    combined by [f]; what falls outside [dst] is clipped. *)
Fixpoint paste_at {A B} (f : A -> B -> A) (dst : list A) (src : list B)
    (off : nat) : list A :=
  match dst with
  | [] => []
  | d :: dst' =>
      match off with
      | S k => d :: paste_at f dst' src k
      | O => match src with
             | [] => dst
             | s :: src' => f d s :: paste_at f dst' src' O
             end
      end
  end.

(** [canvas.paste(im, (x0, y0))] without a mask, for the
    non-negative offsets [_prepare_image] passes. *)
Definition paste (canvas im : Image) (box : Z * Z) : Image :=
  let '(x0, y0) := box in
  mkImage (size canvas)
    (paste_at (fun drow srow =>
                 paste_at (fun _ p => p) drow srow (Z.to_nat x0))
              (rows canvas) (rows im) (Z.to_nat y0)).

(** A channel-first tensor of shape (C, H, W). *)
Definition tensor (A : Type) := list (list (list A)).

(** [TVF.pil_to_tensor(im)]: uint8, channel first. *)
Definition pil_to_tensor (im : Image) : tensor Z :=
  [ map (map (fun p : rgb => fst (fst p))) (rows im);
    map (map (fun p : rgb => snd (fst p))) (rows im);
    map (map (fun p : rgb => snd p)) (rows im) ].

Definition tensor_map {A B} (f : A -> B) (t : tensor A) : tensor B :=
  map (map (map f)) t.

(** [t[c][y][x]] *)
Definition tensor_at {A} (t : tensor A) (c y x : nat) : option A :=
  match nth_error t c with
  | Some ch => match nth_error ch y with
               | Some r => nth_error r x
               | None => None
               end
  | None => None
  end.

(** [torch.as_tensor(values, dtype=torch.float32)] of Python floats. *)
Definition as_f32 (values : list pyfloat) : list f32 := map to_f32 values.

Fixpoint map2 {A B C} (f : A -> B -> C) (l : list A) (l' : list B) : list C :=
  match l, l' with
  | a :: l, b :: l' => f a b :: map2 f l l'
  | _, _ => []
  end.

(** [TVF.normalize(x, mean, std)] on a float tensor whose channels are
    as many as the constants: [x.sub_(mean[:, None, None])
    .div_(std[:, None, None])]. *)
Definition normalize (x : tensor f32) (mean std : list pyfloat) : tensor f32 :=
  map2 (fun ch (ms : f32 * f32) =>
          map (map (fun v => f32_div (f32_sub v (fst ms)) (snd ms))) ch)
       x (combine (as_f32 mean) (as_f32 std)).

Definition MEAN : list pyfloat :=
  [float_literal 48145466 8; float_literal 4578275 7; float_literal 40821073 8].
Definition STD : list pyfloat :=
  [float_literal 26862954 8; float_literal 26130258 8; float_literal 27577711 8].

(** The scalar [255.0]. *)
Definition f255 : f32 := to_f32 (float_literal 2550 1).

(* ------------------------------------------------------------------ *)
(** ** The world outside the file *)

(** A [requests.Response], as far as the handler reads it. *)
Record HttpResponse := mkHttpResponse {
  status_code : Z;
  reason : pystr;
  url : pystr;
  content : list N
}.

(** A loaded JoyTag [VisionModel].  [forward call batch] is
    [model({"image": batch})["tags"]], one row of logits per batch
    element; [call] stands for whatever hidden state of the network a
    given call may depend on. *)
Record VisionModel := mkVisionModel {
  image_size : Z;
  forward : nat -> list (tensor f32) -> res (list (list f32))
}.

Record Externals := mkExternals {
  (** builtin [float(s)] on a [str] *)
  float_of_str : pystr -> res pyfloat;
  (** [os.environ.get("JOYTAG_MODEL_DIR", <default>)] *)
  env_model_dir : pystr;
  (** [os.environ.get("JOYTAG_FILES_ROOT", <default>)] *)
  env_files_root : pystr;
  (** [torch.backends.mps.is_available()], [torch.cuda.is_available()] *)
  mps_available : bool;
  cuda_available : bool;
  (** [os.environ.get("JOYTAG_THRESHOLD")], when set *)
  env_threshold : option pystr;
  (** [VisionModel.load_model(dir)], [m.to(device).eval()] *)
  load_model : pystr -> res VisionModel;
  to_device_eval : VisionModel -> pystr -> res VisionModel;
  (** [Path(a) / b], [p.exists()], [p.read_text(encoding="utf-8")] *)
  path_join : pystr -> pystr -> pystr;
  path_exists : pystr -> res bool;
  read_text : pystr -> res pystr;
  (** [Image.open(path).convert("RGB")], [Image.open(stream).convert("RGB")] *)
  open_path : pystr -> res Image;
  open_bytes : list N -> res Image;
  (** [requests.get(url, timeout=t)] *)
  requests_get : pyval -> Z -> res HttpResponse;
  (** [im.resize(size, Image.BICUBIC)] *)
  resize_bicubic : Image -> Z * Z -> res Image;
  (** [torch.sigmoid] on one float32 *)
  sigmoid : f32 -> f32;
  (** [int((time.time() - t0) * 1000)] for the request at hand *)
  elapsed_ms : Z
}.

(** The module globals. *)
Record Globals := mkGlobals {
  model : option VisionModel;
  top_tags : option (list pystr);
  device : pystr;
  THRESHOLD_DEFAULT : pyfloat
}.


(* ------------------------------------------------------------------ *)
(** ** Model loader *)

Definition _pick_device (X : Externals) : pystr :=
  if mps_available X then py "mps"
  else if cuda_available X then py "cuda"
  else py "cpu".

(** [[ln.strip() for ln in text.splitlines() if ln.strip()]] *)
Definition load_tags (text : pystr) : list pystr :=
  map strip
    (filter (fun ln => match strip ln with [] => false | _ => true end)
            (splitlines text)).

(** [initialize_model()]: the globals it leaves behind and the
    exception it ends with, if any.  The globals are assigned one by
    one, so a failure keeps the assignments made before it. *)
Definition initialize_model (X : Externals) (g : Globals)
  : Globals * option exn :=
  let model_dir := env_model_dir X in
  let g := mkGlobals (model g) (top_tags g) (_pick_device X)
                     (THRESHOLD_DEFAULT g) in
  match load_model X model_dir with
  | Err e => (g, Some e)
  | Ok m =>
      let g := mkGlobals (Some m) (top_tags g) (device g)
                         (THRESHOLD_DEFAULT g) in
      match to_device_eval X m (device g) with
      | Err e => (g, Some e)
      | Ok m =>
          let g := mkGlobals (Some m) (top_tags g) (device g)
                             (THRESHOLD_DEFAULT g) in
          let tags_file := path_join X model_dir (py "top_tags.txt") in
          match path_exists X tags_file with
          | Err e => (g, Some e)
          | Ok false =>
              (g, Some (Exn "FileNotFoundError"
                         (py "top_tags.txt not found in " ++ model_dir
                          ++ py ". Download JoyTag models first.")))
          | Ok true =>
              match read_text X tags_file with
              | Err e => (g, Some e)
              | Ok text =>
                  (mkGlobals (model g) (Some (load_tags text)) (device g)
                             (THRESHOLD_DEFAULT g), None)
              end
          end
      end
  end.

(* ------------------------------------------------------------------ *)
(** ** Preprocessor *)

Local Open Scope res_scope.

Definition _prepare_image (X : Externals) (image : Image) (target : Z)
  : res (tensor f32) :=
  let '(w, h) := size image in
  let m := Z.max w h in
  let pad_l := (m - w) / 2 in
  let pad_t := (m - h) / 2 in
  let canvas := Image_new (m, m) white in
  let canvas := paste canvas image (pad_l, pad_t) in
  canvas <- (if negb (m =? target)
             then resize_bicubic X canvas (target, target)
             else Ok canvas) ;;
  let x := tensor_map (fun v => f32_div (f32_of_uint8 v) f255)
                      (pil_to_tensor canvas) in
  let x := normalize x MEAN STD in
  Ok x.

(* ------------------------------------------------------------------ *)
(** ** Inference and thresholding *)

Definition _predict_tensor (X : Externals) (g : Globals) (call : nat)
    (t : tensor f32) : res (list f32) :=
  match model g with
  | None => Err (Exn "TypeError" (py "'NoneType' object is not callable"))
  | Some m =>
      out <- forward m call [t] ;;
      match map (map (sigmoid X)) out with
      | row :: _ => Ok row
      | [] => Err (Exn "IndexError"
                (py "index 0 is out of bounds for dimension 0 with size 0"))
      end
  end.

(** [t[i]] on a one-dimensional tensor. *)
Definition tensor_item (t : list f32) (i : nat) : res f32 :=
  match nth_error t i with
  | Some x => Ok x
  | None => Err (Exn "IndexError"
              (py "index " ++ str_of_int (Z.of_nat i)
               ++ py " is out of bounds for dimension 0 with size "
               ++ str_of_int (Z.of_nat (length t))))
  end.

(** [l[i]] on a list. *)
Definition list_item {A} (l : list A) (i : nat) : res A :=
  match nth_error l i with
  | Some x => Ok x
  | None => Err (Exn "IndexError" (py "list index out of range"))
  end.

(** [{top_tags[i]: float(scores_tensor[i]) for i in range(n)}] *)
Definition scores_upto (top_tags : list pystr) (scores_tensor : list f32)
    (n : nat) : res (dict pyfloat) :=
  fold_left
    (fun acc i =>
       d <- acc ;;
       k <- list_item top_tags i ;;
       v <- tensor_item scores_tensor i ;;
       Ok (dict_set d k (float_of_f32 v)))
    (seq 0 n) (Ok []).

(** [{top_tags[i]: float(scores_tensor[i]) for i in range(len(top_tags))}] *)
Definition build_scores (top_tags : list pystr) (scores_tensor : list f32)
  : res (dict pyfloat) :=
  scores_upto top_tags scores_tensor (length top_tags).

Definition _predict_image (X : Externals) (g : Globals) (call : nat)
    (img : Image) (threshold : pyfloat)
  : res (list pystr * dict pyfloat) :=
  m <- match model g with
       | Some m => Ok m
       | None => Err (Exn "AttributeError"
                   (py "'NoneType' object has no attribute 'image_size'"))
       end ;;
  t <- _prepare_image X img (image_size m) ;;
  scores_tensor <- _predict_tensor X g call t ;;
  tags <- match top_tags g with
          | Some l => Ok l
          | None => Err (Exn "TypeError"
                      (py "object of type 'NoneType' has no len()"))
          end ;;
  scores <- build_scores tags scores_tensor ;;
  let predicted :=
    map fst (filter (fun kv => float_ge (snd kv) threshold) scores) in
  Ok (predicted, scores).

(* ------------------------------------------------------------------ *)
(** ** HTTP layer *)

(** What Flask sends back: a status and the object given to [jsonify]. *)
Record Response := mkResponse { status : Z; body : pyval }.

(** What a handler does to the outside world, in order. *)
Inductive event :=
| EvExists (p : pystr)
| EvOpenPath (p : pystr)
| EvGet (u : pyval) (timeout : Z)
| EvOpenBytes (b : list N)
| EvLogException (e : exn).

(** How a block of a view function ends: it falls through with a value,
    executes [return], or raises. *)
Inductive flow (A : Type) : Type :=
| Next (a : A)
| Return (r : Response)
| Raise (e : exn).
Arguments Next {A} a.
Arguments Return {A} r.
Arguments Raise {A} e.

(** A handler computation: the events so far and how it ended. *)
Definition handler (A : Type) : Type := (list event * flow A)%type.

Definition h_bind {A B} (c : handler A) (k : A -> handler B) : handler B :=
  match c with
  | (t, Next a) => let '(t', r) := k a in (t ++ t', r)
  | (t, Return r) => (t, Return r)
  | (t, Raise e) => (t, Raise e)
  end.

Definition next {A} (a : A) : handler A := ([], Next a).
Definition return_ {A} (r : Response) : handler A := ([], Return r).
Definition lift {A} (r : res A) : handler A :=
  match r with Ok a => ([], Next a) | Err e => ([], Raise e) end.
(** An external call, recorded. *)
Definition perform {A} (ev : event) (r : res A) : handler A :=
  match r with Ok a => ([ev], Next a) | Err e => ([ev], Raise e) end.

Declare Scope handler_scope.
Delimit Scope handler_scope with handler.
Notation "x <~ c ;; k" := (h_bind c (fun x => k))
  (at level 61, c at next level, right associativity) : handler_scope.
Local Open Scope handler_scope.

(** [jsonify({"error": msg}), code] *)
Definition error_response (code : Z) (msg : pystr) : Response :=
  mkResponse code (PDict [(py "error", PStr msg)]).

(** The request object, as far as [api_tag] reads it. *)
Record Request := mkRequest {
  (** [request.is_json] *)
  is_json : bool;
  (** outcome of [request.get_json()] *)
  get_json : res pyval;
  (** [request.files], the uploads by field name *)
  files : dict (list N);
  (** [request.form] *)
  form : dict pystr
}.

(** Builtin [float(v)]. *)
Definition py_float (X : Externals) (v : pyval) : res pyfloat :=
  match v with
  | PFloat f => Ok f
  | PBool b => Ok (binary_normalize 53 1024 (if b then 1 else 0) 0 false)
  | PInt z =>
      match binary_normalize 53 1024 z 0 false with
      | S754_infinity _ =>
          Err (Exn "OverflowError" (py "int too large to convert to float"))
      | f => Ok f
      end
  | PStr s => float_of_str X s
  | _ => Err (Exn "TypeError"
            (py "float() argument must be a string or a real number, not '"
             ++ type_name v ++ py "'"))
  end.

(** The globals once the module is imported:
    [THRESHOLD_DEFAULT = float(os.environ.get("JOYTAG_THRESHOLD", 0.4))]. *)
Definition globals_at_import (X : Externals) : res Globals :=
  threshold <- py_float X match env_threshold X with
                          | Some s => PStr s
                          | None => PFloat (float_literal 4 1)
                          end ;;
  Ok (mkGlobals None None (py "cpu") threshold).

(** [r.raise_for_status()] *)
Definition raise_for_status (r : HttpResponse) : res unit :=
  let describe (kind : pystr) :=
    Err (Exn "HTTPError"
          (str_of_int (status_code r) ++ kind ++ reason r
           ++ py " for url: " ++ url r)) in
  if (400 <=? status_code r) && (status_code r <? 500)
  then describe (py " Client Error: ")
  else if (500 <=? status_code r) && (status_code r <? 600)
  then describe (py " Server Error: ")
  else Ok tt.

(** The JSON branch of [api_tag] from the threshold on, [d] being the
    dictionary held by [data]: the threshold in effect and the image
    variable. *)
Definition resolve_json (X : Externals) (g : Globals) (d : dict pyval)
  : handler (pyfloat * option Image) :=
  threshold <~ lift (py_float X
                 match dict_get d (py "threshold") with
                 | Some v => v
                 | None => PFloat (THRESHOLD_DEFAULT g)
                 end) ;;
  match dict_get d (py "file_key") with
  | Some file_key =>
      let files_root := env_files_root X in
      abs_path <~ lift match file_key with
                       | PStr k => Ok (path_join X files_root k)
                       | _ => Err (Exn "TypeError"
                           (py "unsupported operand type(s) for /: 'PosixPath' and '"
                            ++ type_name file_key ++ py "'"))
                       end ;;
      present <~ perform (EvExists abs_path) (path_exists X abs_path) ;;
      if negb present then
        return_ (error_response 400 (py "file not found: " ++ abs_path))
      else
        image <~ perform (EvOpenPath abs_path) (open_path X abs_path) ;;
        next (threshold, Some image)
  | None =>
      match dict_get d (py "image_url") with
      | Some image_url =>
          r <~ perform (EvGet image_url 30) (requests_get X image_url 30) ;;
          _ <~ lift (raise_for_status r) ;;
          image <~ perform (EvOpenBytes (content r))
                           (open_bytes X (content r)) ;;
          next (threshold, Some image)
      | None =>
          return_ (error_response 400 (py "missing file_key or image_url"))
      end
  end.

(** The multipart branch of [api_tag]. *)
Definition resolve_multipart (X : Externals) (g : Globals) (req : Request)
  : handler (pyfloat * option Image) :=
  match dict_get (files req) (py "image") with
  | None => return_ (error_response 400 (py "no image file provided"))
  | Some upload =>
      let threshold :=
        match py_float X match dict_get (form req) (py "threshold") with
                         | Some s => PStr s
                         | None => PFloat (THRESHOLD_DEFAULT g)
                         end with
        | Ok f => f
        | Err _ => THRESHOLD_DEFAULT g
        end in
      image <~ perform (EvOpenBytes upload) (open_bytes X upload) ;;
      next (threshold, Some image)
  end.

(** The dispatch of [api_tag] on the content type, up to the check of
    [image]. *)
Definition resolve_image (X : Externals) (g : Globals) (req : Request)
  : handler (pyfloat * option Image) :=
  if is_json req then
    parsed <~ lift (get_json req) ;;
    let data := if truthy parsed then parsed else PDict [] in
    (* data.get: only a dict has it *)
    d <~ lift match data with
              | PDict d => Ok d
              | _ => Err (Exn "AttributeError"
                       (py "'" ++ type_name data
                        ++ py "' object has no attribute 'get'"))
              end ;;
    resolve_json X g d
  else
    resolve_multipart X g req.

(** The body of the [try] of [api_tag]. *)
Definition api_tag_try (X : Externals) (g : Globals) (call : nat)
    (req : Request) : handler Response :=
  ti <~ resolve_image X g req ;;
  let '(threshold, image) := ti in
  match image with
  | None => return_ (error_response 400 (py "no image resolved"))
  | Some image =>
      ps <~ lift (_predict_image X g call image threshold) ;;
      let '(tags, scores) := ps in
      let dt := elapsed_ms X in
      return_ (mkResponse 200 (PDict
        [ (py "predicted_tags", PList (map PStr tags));
          (py "tag_count", PInt (Z.of_nat (length tags)));
          (py "threshold", PFloat threshold);
          (py "scores", PDict (map (fun kv => (fst kv, PFloat (snd kv))) scores));
          (py "processing_time_ms", PInt dt) ]))
  end.

(** [POST /api/v1/tag]: the events and the response. *)
Definition api_tag (X : Externals) (g : Globals) (call : nat)
    (req : Request) : list event * Response :=
  match api_tag_try X g call req with
  | (t, Next r) => (t, r)
  | (t, Return r) => (t, r)
  | (t, Raise e) =>
      (t ++ [EvLogException e], error_response 500 (exn_msg e))
  end.

(** [GET /health] *)
Definition health (g : Globals) : Response :=
  mkResponse 200 (PDict
    [ (py "status", PStr (py "ok"));
      (py "services",
       PDict [(py "joytag",
               PStr (match model g with
                     | Some _ => py "ready"
                     | None => py "loading"
                     end))]);
      (py "device", PStr (device g));
      (py "tags",
       PInt (Z.of_nat (length match top_tags g with
                              | Some (t :: l) => t :: l
                              | _ => []
                              end)));
      (py "version", PStr (py "cb-joytag-bridge-1")) ]).

(* ------------------------------------------------------------------ *)
(** ** Vocabulary of the statements *)

(** The distinct elements of a list, each at its first occurrence. *)
Definition first_occurrences (l : list pystr) : list pystr :=
  fold_left
    (fun acc k => if existsb (fun k' => str_eqb k' k) acc then acc
                  else acc ++ [k])
    l [].

(** [del d[k]], when the key is there. *)
Fixpoint dict_del {V} (d : dict V) (k : pystr) : dict V :=
  match d with
  | [] => []
  | (k', v) :: d' => if str_eqb k' k then d' else (k', v) :: dict_del d' k
  end.

(** The HTTP GET of [u] failed: the call raised, or the status is one
    [raise_for_status] rejects. *)
Definition fetch_failed (X : Externals) (u : pyval) : bool :=
  match requests_get X u 30 with
  | Err _ => true
  | Ok r => (400 <=? status_code r) && (status_code r <? 600)
  end.

(** The pixel of the padded canvas at (x, y), as the preprocessor is
    meant to lay it out. *)
Definition padded_pixel (image : Image) (x y : Z) : option rgb :=
  let m := Z.max (width image) (height image) in
  let pad_l := (m - width image) / 2 in
  let pad_t := (m - height image) / 2 in
  if (pad_l <=? x) && (x <? pad_l + width image)
     && (pad_t <=? y) && (y <? pad_t + height image)
  then getpixel image (x - pad_l) (y - pad_t)
  else Some white.

(** The canvas of [_prepare_image] after the paste. *)
Definition square_pad (image : Image) : Image :=
  let m := Z.max (width image) (height image) in
  paste (Image_new (m, m) white) image
        ((m - width image) / 2, (m - height image) / 2).

(** What [_prepare_image] makes of its final canvas: the scaled and
    normalised tensor. *)
Definition model_input (canvas : Image) : tensor f32 :=
  normalize (tensor_map (fun v => f32_div (f32_of_uint8 v) f255)
                        (pil_to_tensor canvas))
            MEAN STD.

(** No event of the trace is an HTTP GET. *)
Definition no_fetch (t : list event) : Prop :=
  forall u timeout, ~ In (EvGet u timeout) t.

(** Channel [c] of a pixel. *)
Definition channel (c : nat) (p : rgb) : Z :=
  match c with
  | O => fst (fst p)
  | S O => snd (fst p)
  | _ => snd p
  end.

(** The float32 constants of the normalisation, bit for bit. *)
Definition MEAN32 : list f32 :=
  [ S754_finite false 16154938 (-25); S754_finite false 15362142 (-25);
    S754_finite false 13697279 (-25) ].
Definition STD32 : list f32 :=
  [ S754_finite false 9013712 (-25); S754_finite false 8767860 (-25);
    S754_finite false 9253544 (-25) ].

(** Scale by 1/255, then normalise with the constants of channel [c]. *)
Definition normalized_value (c : nat) (v : Z) : f32 :=
  f32_div (f32_sub (f32_div (f32_of_uint8 v) (S754_finite false 16711680 (-16)))
                   (nth c MEAN32 S754_nan))
          (nth c STD32 S754_nan).

(** The IndexError of a score tensor of [size] elements read at [size]. *)
Definition tensor_index_error (size : nat) : exn :=
  Exn "IndexError"
    (py "index " ++ str_of_int (Z.of_nat size)
     ++ py " is out of bounds for dimension 0 with size "
     ++ str_of_int (Z.of_nat size)).

(** The predicted tags, as [_predict_image] selects them from a score
    mapping. *)
Definition select_tags (scores : dict pyfloat) (threshold : pyfloat)
  : list pystr :=
  map fst (filter (fun kv => float_ge (snd kv) threshold) scores).

(** The 200 answer of [api_tag]. *)
Definition tagging_response (threshold : pyfloat) (tags : list pystr)
    (scores : dict pyfloat) (dt : Z) : Response :=
  mkResponse 200 (PDict
    [ (py "predicted_tags", PList (map PStr tags));
      (py "tag_count", PInt (Z.of_nat (length tags)));
      (py "threshold", PFloat threshold);
      (py "scores", PDict (map (fun kv => (fst kv, PFloat (snd kv))) scores));
      (py "processing_time_ms", PInt dt) ]).

(** The traces the dispatch can leave, by image source. *)
Inductive resolve_trace (X : Externals) (req : Request)
  : list event -> Prop :=
| trace_none : resolve_trace X req []
| trace_probe p : is_json req = true -> resolve_trace X req [EvExists p]
| trace_file p :
    is_json req = true -> path_exists X p = Ok true ->
    resolve_trace X req [EvExists p; EvOpenPath p]
| trace_get u : is_json req = true -> resolve_trace X req [EvGet u 30]
| trace_fetch u r :
    is_json req = true -> requests_get X u 30 = Ok r ->
    resolve_trace X req [EvGet u 30; EvOpenBytes (content r)]
| trace_upload b :
    is_json req = false -> dict_get (files req) (py "image") = Some b ->
    resolve_trace X req [EvOpenBytes b].

(** How the dispatch ends, with the trace it leaves and the threshold
    it settles on. *)
Inductive resolve_outcome (X : Externals) (g : Globals) (req : Request)
  : handler (pyfloat * option Image) -> Prop :=
| outcome_image t th img :
    (is_json req = true ->
       exists v d, get_json req = Ok v /\
                   (if truthy v then v else PDict []) = PDict d /\
                   py_float X match dict_get d (py "threshold") with
                              | Some w => w
                              | None => PFloat (THRESHOLD_DEFAULT g)
                              end = Ok th) ->
    (is_json req = false ->
       th = match dict_get (form req) (py "threshold") with
            | Some s => match float_of_str X s with
                        | Ok f => f
                        | Err _ => THRESHOLD_DEFAULT g
                        end
            | None => THRESHOLD_DEFAULT g
            end) ->
    resolve_outcome X g req (t, Next (th, Some img))
| outcome_missing_sources :
    is_json req = true ->
    resolve_outcome X g req
      ([], Return (error_response 400 (py "missing file_key or image_url")))
| outcome_missing_upload :
    is_json req = false ->
    dict_get (files req) (py "image") = None ->
    resolve_outcome X g req
      ([], Return (error_response 400 (py "no image file provided")))
| outcome_file_not_found p :
    is_json req = true ->
    path_exists X p = Ok false ->
    resolve_outcome X g req
      ([EvExists p],
       Return (error_response 400 (py "file not found: " ++ p)))
| outcome_raise t e : resolve_outcome X g req (t, Raise e).

(** A tensor of shape (c, h, w). *)
Definition tensor_shape {A} (t : tensor A) (c h w : nat) : Prop :=
  length t = c /\
  Forall (fun ch => length ch = h /\ Forall (fun r => length r = w) ch) t.

(** Every channel of every pixel is a byte. *)
Definition is_byte (v : Z) : Prop := 0 <= v <= 255.
Definition pixel_valid (p : rgb) : Prop :=
  is_byte (fst (fst p)) /\ is_byte (snd (fst p)) /\ is_byte (snd p).
Definition pixels_valid (im : Image) : Prop :=
  Forall (Forall pixel_valid) (rows im).

(** A float32 that is a number: neither NaN nor an infinity. *)
Definition is_finite (x : spec_float) : bool :=
  match x with
  | S754_zero _ | S754_finite _ _ _ => true
  | _ => false
  end.

(** The value of byte [v] in channel [c] is a number between the values
    of the bytes 0 and 255 of that channel. *)
Definition normalized_in_range (c : nat) (v : Z) : bool :=
  is_finite (normalized_value c v)
  && SFleb (normalized_value c 0) (normalized_value c v)
  && SFleb (normalized_value c v) (normalized_value c 255).

(** What is left to read after the line boundary [c]: a line feed that
    follows a carriage return belongs to the same boundary. *)
Definition after_boundary (c : N) (s : pystr) : pystr :=
  if (c =? 13)%N then
    match s with
    | c' :: s' => if (c' =? 10)%N then s' else s
    | [] => s
    end
  else s.

(** A vocabulary file: one tag per line, each line ended by LF. *)
Definition vocabulary_file (tags : list pystr) : pystr :=
  concat (map (fun tg => tg ++ [10%N]) tags).

(** A tag as [load_tags] keeps them. *)
Definition clean_tag (tg : pystr) : Prop :=
  tg <> [] /\ strip tg = tg /\ Forall (fun c => is_linebreak c = false) tg.

(** The exception a fetch of [u] ends with, if any: the one
    [requests.get] raises, or else the HTTPError of
    [raise_for_status]. *)
Definition fetch_exception (X : Externals) (u : pyval) : option exn :=
  match requests_get X u 30 with
  | Err e => Some e
  | Ok r => match raise_for_status r with
            | Err e => Some e
            | Ok _ => None
            end
  end.



(* ------------------------------------------------------------------ *)
(** ** A small concrete world, to run the definitions on *)

Module Sample.

Definition nan_text : pystr := py "abc".

(** Reads ["0.5"] and nothing else. *)
Definition parse_half (s : pystr) : res pyfloat :=
  if str_eqb s (py "0.5") then Ok (float_literal 5 1)
  else Err (Exn "ValueError"
             (py "could not convert string to float: '" ++ s ++ py "'")).

(** A 3x1 image: red, green, blue. *)
Definition wide : Image :=
  mkImage (3, 1) [[(255, 0, 0); (0, 255, 0); (0, 0, 255)]].

(** A 2x2 image. *)
Definition square : Image :=
  mkImage (2, 2) [[(0, 0, 0); (10, 20, 30)]; [(40, 50, 60); (255, 255, 255)]].

(** Stand-in for the resampler: the top left pixel everywhere. *)
Definition flat_resize (im : Image) (sz : Z * Z) : res Image :=
  if (fst sz <? 1) || (snd sz <? 1) then
    Err (Exn "ValueError" (py "height and width must be > 0"))
  else
    Ok (Image_new sz match getpixel im 0 0 with
                     | Some p => p
                     | None => white
                     end).

(** Stand-in for the sigmoid: three levels by sign. *)
Definition step_sigmoid (x : f32) : f32 :=
  match x with
  | S754_finite false _ _ => S754_finite false 12582912 (-24)   (* 0.75 *)
  | S754_finite true _ _ => S754_finite false 8388608 (-25)     (* 0.25 *)
  | _ => S754_finite false 8388608 (-24)                        (* 0.5 *)
  end.

(** A network with three outputs that ignores its input. *)
Definition net : VisionModel :=
  mkVisionModel 2
    (fun _ batch =>
       Ok (map (fun _ => [ S754_finite false 8388608 (-23);
                           S754_zero false;
                           S754_finite true 8388608 (-23) ]) batch)).

Definition missing_url : pystr := py "http://img.test/missing.png".

Definition fetch (u : pyval) (timeout : Z) : res HttpResponse :=
  match u with
  | PStr s =>
      if str_eqb s missing_url
      then Ok (mkHttpResponse 404 (py "Not Found") s [])
      else Ok (mkHttpResponse 200 (py "OK") s [137%N; 80%N; 78%N; 71%N])
  | _ => Err (Exn "MissingSchema" (py "Invalid URL"))
  end.

Definition vocabulary_text : pystr :=
  [97; 10; 98; 10; 97; 10]%N.   (* "a\nb\na\n" *)

Definition X : Externals :=
  {| float_of_str := parse_half;
     env_model_dir := py "/srv/models";
     env_files_root := py "/srv/data";
     mps_available := false;
     cuda_available := false;
     env_threshold := None;
     load_model := fun _ => Ok net;
     to_device_eval := fun m _ => Ok m;
     path_join := fun a b => a ++ py "/" ++ b;
     path_exists := fun p =>
       Ok (str_eqb p (py "/srv/data/cat.png")
           || str_eqb p (py "/srv/models/top_tags.txt"));
     read_text := fun _ => Ok vocabulary_text;
     open_path := fun _ => Ok square;
     open_bytes := fun b =>
       match b with
       | [] => Err (Exn "UnidentifiedImageError"
                 (py "cannot identify image file"))
       | _ => Ok wide
       end;
     requests_get := fetch;
     resize_bicubic := flat_resize;
     sigmoid := step_sigmoid;
     elapsed_ms := 12 |}.

Definition half : pyfloat := float_literal 5 1.

(** Globals with a three-tag vocabulary without repetition. *)
Definition ready : Globals :=
  mkGlobals (Some net) (Some [py "cat"; py "dog"; py "tree"]) (py "cpu")
            (float_literal 4 1).

(** Globals as [initialize_model] leaves them in world [X]. *)
Definition loaded : Globals :=
  match globals_at_import X with
  | Ok g => fst (initialize_model X g)
  | Err _ => mkGlobals None None (py "cpu") (float_literal 4 1)
  end.

Definition json_request (v : pyval) : Request :=
  mkRequest true (Ok v) [] [].

(** [{"image_url": "http://img.test/missing.png"}] *)
Definition missing_url_request : Request :=
  json_request (PDict [(py "image_url", PStr missing_url)]).

(** [{"threshold": null}] *)
Definition null_threshold_request : Request :=
  json_request (PDict [(py "threshold", PNone)]).

(** [{"file_key": "cat.png", "image_url": "http://img.test/missing.png"}] *)
Definition both_sources : dict pyval :=
  [(py "file_key", PStr (py "cat.png")); (py "image_url", PStr missing_url)].

Definition upload_request (threshold : option pystr) : Request :=
  mkRequest false
    (Err (Exn "UnsupportedMediaType" (py "415 Unsupported Media Type")))
    [(py "image", [255%N; 216%N])]
    match threshold with
    | Some s => [(py "threshold", s)]
    | None => []
    end.

End Sample.

(* ================================================================== *)
(** * Properties *)

(** ** Strings and dictionaries *)

Lemma str_eqb_eq (a b : pystr) : str_eqb a b = true <-> a = b.
Proof.
  revert b; induction a as [|x a IH]; intros [|y b]; simpl;
    try (split; congruence).
  rewrite andb_true_iff, N.eqb_eq, IH. split.
  - intros [-> ->]; reflexivity.
  - intros E; injection E; auto.
Qed.

Lemma str_eqb_refl (a : pystr) : str_eqb a a = true.
Proof. apply str_eqb_eq; reflexivity. Qed.

Lemma str_eqb_neq (a b : pystr) : str_eqb a b = false <-> a <> b.
Proof.
  rewrite <- str_eqb_eq. destruct (str_eqb a b); split; congruence.
Qed.

Section DictFacts.
Context {V : Type}.
Implicit Types (d : dict V) (k : pystr) (v : V).

Lemma dict_mem_keys d k :
  dict_mem d k = existsb (fun k' => str_eqb k' k) (dict_keys d).
Proof.
  unfold dict_mem. induction d as [|[k' v'] d IH]; simpl; [reflexivity|].
  destruct (str_eqb k' k); simpl; auto.
Qed.

Lemma dict_mem_In d k : dict_mem d k = true <-> In k (dict_keys d).
Proof.
  rewrite dict_mem_keys, existsb_exists. split.
  - intros [k' [Hin E]]. apply str_eqb_eq in E; subst; assumption.
  - intros Hin; exists k; split; [assumption | apply str_eqb_refl].
Qed.

Lemma dict_keys_set d k v :
  dict_keys (dict_set d k v) =
  if dict_mem d k then dict_keys d else dict_keys d ++ [k].
Proof.
  unfold dict_mem, dict_keys.
  induction d as [|[k' v'] d IH]; simpl; [reflexivity|].
  destruct (str_eqb k' k); simpl; [reflexivity|].
  rewrite IH. destruct (dict_get d k); reflexivity.
Qed.

Lemma dict_set_NoDup d k v :
  NoDup (dict_keys d) -> NoDup (dict_keys (dict_set d k v)).
Proof.
  intros ND. rewrite dict_keys_set.
  destruct (dict_mem d k) eqn:M; [assumption|].
  apply NoDup_app; [assumption | repeat constructor; simpl; tauto |].
  intros x Hin [<-|[]].
  apply dict_mem_In in Hin. congruence.
Qed.

Lemma dict_get_In d k v : dict_get d k = Some v -> In (k, v) d.
Proof.
  induction d as [|[k' v'] d IH]; simpl; [discriminate|].
  destruct (str_eqb k' k) eqn:E.
  - apply str_eqb_eq in E. intros [= ->]. subst. auto.
  - auto.
Qed.

Lemma In_dict_get d k v :
  NoDup (dict_keys d) -> In (k, v) d -> dict_get d k = Some v.
Proof.
  induction d as [|[k' v'] d IH]; simpl; [tauto|].
  intros ND [E|Hin].
  - injection E as -> ->. rewrite str_eqb_refl. reflexivity.
  - inversion ND as [|? ? Hnotin ND']; subst.
    destruct (str_eqb k' k) eqn:E.
    + apply str_eqb_eq in E; subst. exfalso; apply Hnotin.
      change k with (fst (k, v)). apply in_map; assumption.
    + auto.
Qed.

Lemma dict_get_del_other d k k' :
  k' <> k -> dict_get (dict_del d k) k' = dict_get d k'.
Proof.
  intros Hne. induction d as [|[k0 v0] d IH]; simpl; [reflexivity|].
  destruct (str_eqb k0 k) eqn:E.
  - apply str_eqb_eq in E; subst.
    apply str_eqb_neq in Hne. rewrite (proj2 (str_eqb_neq k k')); auto.
    apply str_eqb_neq in Hne. auto.
  - simpl. rewrite IH. reflexivity.
Qed.
End DictFacts.

Lemma first_occurrences_snoc (l : list pystr) (k : pystr) :
  first_occurrences (l ++ [k]) =
  if existsb (fun k' => str_eqb k' k) (first_occurrences l)
  then first_occurrences l else first_occurrences l ++ [k].
Proof. unfold first_occurrences. rewrite fold_left_app. reflexivity. Qed.

Lemma first_occurrences_NoDup_id (l : list pystr) :
  NoDup l -> first_occurrences l = l.
Proof.
  induction l as [|x l IH] using rev_ind; [reflexivity|].
  intros ND. apply NoDup_remove in ND. rewrite app_nil_r in ND.
  destruct ND as [ND Hnotin].
  rewrite first_occurrences_snoc, (IH ND).
  destruct (existsb (fun k' => str_eqb k' x) l) eqn:E; [|reflexivity].
  apply existsb_exists in E. destruct E as [k' [Hin E]].
  apply str_eqb_eq in E; subst. tauto.
Qed.

Lemma firstn_snoc {A} (l : list A) (n : nat) (x : A) :
  nth_error l n = Some x -> firstn (S n) l = firstn n l ++ [x].
Proof.
  revert n; induction l as [|a l IH]; intros [|n]; simpl; try discriminate.
  - intros [= ->]; reflexivity.
  - intros H. f_equal. apply IH; assumption.
Qed.

(** ** The score mapping *)

Lemma scores_upto_S tags t n d' :
  scores_upto tags t (S n) = Ok d' ->
  exists d k v,
    scores_upto tags t n = Ok d /\ nth_error tags n = Some k /\
    nth_error t n = Some v /\ d' = dict_set d k (float_of_f32 v).
Proof.
  unfold scores_upto. rewrite seq_S, fold_left_app. simpl.
  match goal with
  | |- context [fold_left ?f (seq 0 n) ?a] =>
      destruct (fold_left f (seq 0 n) a) as [d|e]
  end; simpl; [|discriminate].
  unfold list_item, tensor_item.
  destruct (nth_error tags n) as [k|]; simpl; [|discriminate].
  destruct (nth_error t n) as [v|]; simpl; [|discriminate].
  intros [= <-]. exists d, k, v. auto.
Qed.

Lemma scores_upto_keys tags t n :
  forall d, scores_upto tags t n = Ok d ->
  dict_keys d = first_occurrences (firstn n tags) /\ NoDup (dict_keys d).
Proof.
  induction n as [|n IH]; intros d H.
  - injection H as <-. split; [reflexivity | constructor].
  - apply scores_upto_S in H.
    destruct H as (d0 & k & v & H0 & Hk & Hv & ->).
    destruct (IH d0 H0) as [Hkeys ND]. split.
    + rewrite (firstn_snoc _ _ _ Hk), first_occurrences_snoc, <- Hkeys.
      rewrite dict_keys_set, dict_mem_keys. reflexivity.
    + apply dict_set_NoDup; assumption.
Qed.

Lemma build_scores_keys tags t d :
  build_scores tags t = Ok d ->
  dict_keys d = first_occurrences tags /\ NoDup (dict_keys d).
Proof.
  intros H. destruct (scores_upto_keys tags t (length tags) d H) as [K ND].
  rewrite firstn_all in K. auto.
Qed.

(** The pieces of a successful [_predict_image]. *)
Lemma _predict_image_ok X g call img th predicted scores :
  _predict_image X g call img th = Ok (predicted, scores) ->
  exists tags t,
    top_tags g = Some tags /\ build_scores tags t = Ok scores /\
    predicted = map fst (filter (fun kv => float_ge (snd kv) th) scores).
Proof.
  unfold _predict_image.
  destruct (model g) as [m|]; simpl; [|discriminate].
  destruct (_prepare_image X img (image_size m)) as [x|]; simpl; [|discriminate].
  destruct (_predict_tensor X g call x) as [t|]; simpl; [|discriminate].
  destruct (top_tags g) as [tags|]; simpl; [|discriminate].
  destruct (build_scores tags t) as [d|] eqn:B; simpl; [|discriminate].
  intros [= <- <-]. exists tags, t. auto.
Qed.

(** ** Float comparison *)

Lemma SFcompare_Eq_sym (a b : spec_float) :
  SFcompare a b = Some Eq -> SFcompare b a = Some Eq.
Proof.
  destruct a as [sa|sa| |sa ma ea], b as [sb|sb| |sb mb eb]; simpl;
    try discriminate; try reflexivity;
    try (destruct sa; discriminate); try (destruct sb; discriminate).
  - destruct sa, sb; simpl; congruence.
  - destruct sa, sb; try discriminate;
      destruct (ea ?= eb) eqn:E; try discriminate;
      apply Z.compare_eq in E; subst; rewrite Z.compare_refl;
      destruct (Pos.compare_cont Eq ma mb) eqn:P; try discriminate;
      apply Pos.compare_eq in P; subst;
      change (Pos.compare_cont Eq mb mb) with (Pos.compare mb mb);
      rewrite Pos.compare_refl; reflexivity.
Qed.

Lemma float_eq_ge (a b : pyfloat) : float_eq a b = true -> float_ge a b = true.
Proof.
  unfold float_eq, float_ge, SFeqb, SFleb.
  destruct (SFcompare a b) as [[| |]|] eqn:C; try discriminate.
  rewrite (SFcompare_Eq_sym _ _ C). reflexivity.
Qed.

(** ** Claims on the tagging pipeline *)

(** C2: the predicted tags of a tagging run are exactly the names of the
    score mapping whose score is greater than or equal to the threshold
    (no name twice, in the order of the mapping); a name whose score
    equals the threshold is among them. *)
Theorem predicted_tags_meet_threshold X g call img threshold predicted scores :
  _predict_image X g call img threshold = Ok (predicted, scores) ->
  (forall tg, In tg predicted <->
              exists sc, dict_get scores tg = Some sc /\
                         float_ge sc threshold = true) /\
  NoDup predicted /\
  (forall tg sc, dict_get scores tg = Some sc ->
                 float_eq sc threshold = true -> In tg predicted).
Proof.
  intros H. apply _predict_image_ok in H.
  destruct H as (tags & t & _ & B & ->).
  destruct (build_scores_keys _ _ _ B) as [_ ND].
  assert (Hiff : forall tg,
    In tg (map fst (filter (fun kv => float_ge (snd kv) threshold) scores)) <->
    exists sc, dict_get scores tg = Some sc /\ float_ge sc threshold = true).
  { intros tg. rewrite in_map_iff. split.
    - intros [[k sc] [<- Hin]]. apply filter_In in Hin. destruct Hin as [Hin Hge].
      exists sc. split; [apply In_dict_get; assumption | assumption].
    - intros [sc [Hget Hge]]. exists (tg, sc). split; [reflexivity|].
      apply filter_In. split; [apply dict_get_In; assumption | assumption]. }
  split; [exact Hiff | split].
  - clear Hiff B. unfold dict_keys in ND.
    induction scores as [|[k v] d IH]; simpl; [constructor|].
    inversion ND as [|? ? Hnotin ND']; subst.
    destruct (float_ge v threshold); simpl; [|auto].
    constructor; [|auto].
    intros Hin. apply Hnotin. apply in_map_iff in Hin.
    destruct Hin as [kv [E Hin]]. apply filter_In in Hin.
    rewrite <- E. apply in_map. tauto.
  - intros tg sc Hget Heq. apply Hiff. exists sc.
    split; [assumption | apply float_eq_ge; assumption].
Qed.

Lemma predicted_tags_meet_threshold_witness :
  _predict_image Sample.X Sample.ready 0 Sample.wide Sample.half
  = Ok ([py "cat"; py "dog"],
        [(py "cat", S754_finite false 6755399441055744 (-53));
         (py "dog", Sample.half);
         (py "tree", S754_finite false 4503599627370496 (-54))]) /\
  In (py "dog") [py "cat"; py "dog"].
Proof.
  assert (H : _predict_image Sample.X Sample.ready 0 Sample.wide Sample.half
    = Ok ([py "cat"; py "dog"],
          [(py "cat", S754_finite false 6755399441055744 (-53));
           (py "dog", Sample.half);
           (py "tree", S754_finite false 4503599627370496 (-54))]))
    by (vm_compute; reflexivity).
  split; [exact H|].
  apply (proj2 (proj2 (predicted_tags_meet_threshold _ _ _ _ _ _ _ H))
           (py "dog") Sample.half); vm_compute; reflexivity.
Defined.

(** C3, as stated, fails: the vocabulary file ["a\nb\na\n"] loads as
    [a; b; a], and a successful tagging run over it returns a score
    mapping of two entries, [a] and [b], not three. *)
Lemma scores_one_entry_per_tag_counterexample :
  top_tags Sample.loaded = Some [py "a"; py "b"; py "a"] /\
  _predict_image Sample.X Sample.loaded 0 Sample.wide Sample.half
  = Ok ([py "b"],
        [(py "a", S754_finite false 4503599627370496 (-54));
         (py "b", Sample.half)]) /\
  dict_keys [(py "a", S754_finite false 4503599627370496 (-54));
             (py "b", Sample.half)] <> [py "a"; py "b"; py "a"].
Proof.
  split; [vm_compute; reflexivity|].
  split; [vm_compute; reflexivity|].
  vm_compute. discriminate.
Qed.

(** C3, amended: the score dictionary that a successful run of
    [_predict_image] builds has one entry per distinct tag name of the
    vocabulary, in the order of the first occurrences; when no name is
    repeated in the vocabulary it has exactly one entry per vocabulary
    tag, in the order of the tag list.  This is the dictionary as
    [_predict_image] returns it; the order in which the JSON response
    lists its keys is not part of the statement. *)
Theorem scores_keys_follow_vocabulary X g call img threshold predicted
    scores tags :
  _predict_image X g call img threshold = Ok (predicted, scores) ->
  top_tags g = Some tags ->
  dict_keys scores = first_occurrences tags /\
  NoDup (dict_keys scores) /\
  (NoDup tags -> dict_keys scores = tags /\ length scores = length tags).
Proof.
  intros H T. apply _predict_image_ok in H.
  destruct H as (tags' & t & T' & B & _).
  rewrite T in T'. injection T' as <-.
  destruct (build_scores_keys _ _ _ B) as [K ND].
  split; [exact K | split; [exact ND|]].
  intros NDt. rewrite (first_occurrences_NoDup_id _ NDt) in K.
  split; [exact K|].
  rewrite <- K. unfold dict_keys. rewrite length_map. reflexivity.
Qed.

Lemma scores_keys_follow_vocabulary_witness :
  dict_keys [(py "cat", S754_finite false 6755399441055744 (-53));
             (py "dog", Sample.half);
             (py "tree", S754_finite false 4503599627370496 (-54))]
  = [py "cat"; py "dog"; py "tree"].
Proof.
  refine (proj1 (proj2 (proj2
    (scores_keys_follow_vocabulary Sample.X Sample.ready 0 Sample.wide
       Sample.half [py "cat"; py "dog"]
       [(py "cat", S754_finite false 6755399441055744 (-53));
        (py "dog", Sample.half);
        (py "tree", S754_finite false 4503599627370496 (-54))]
       [py "cat"; py "dog"; py "tree"] _ _)) _)).
  - vm_compute; reflexivity.
  - reflexivity.
  - repeat constructor; simpl; intuition discriminate.
Defined.





(** ** The preprocessor *)

Lemma nth_error_paste_at {A B} (f : A -> B -> A) (dst : list A) :
  forall (src : list B) (off i : nat),
  nth_error (paste_at f dst src off) i =
  match nth_error dst i with
  | None => None
  | Some d =>
      if (off <=? i)%nat then
        match nth_error src (i - off) with
        | Some s => Some (f d s)
        | None => Some d
        end
      else Some d
  end.
Proof.
  induction dst as [|d dst IH]; intros src off i.
  - simpl. rewrite nth_error_nil. reflexivity.
  - destruct off as [|k].
    + destruct src as [|s src].
      * simpl paste_at. rewrite nth_error_nil.
        destruct (nth_error (d :: dst) i); reflexivity.
      * destruct i as [|i]; simpl; [reflexivity|].
        rewrite IH. simpl. rewrite Nat.sub_0_r. reflexivity.
    + destruct i as [|i]; simpl; [reflexivity|].
      rewrite IH. reflexivity.
Qed.

Lemma getpixel_square_pad (image : Image) (x y : Z) :
  image_wf image ->
  0 <= x < Z.max (width image) (height image) ->
  0 <= y < Z.max (width image) (height image) ->
  getpixel (square_pad image) x y = padded_pixel image x y.
Proof.
  intros [Hrows Hcols] Hx Hy.
  unfold square_pad, padded_pixel, getpixel, paste, Image_new.
  set (m := Z.max (width image) (height image)) in *.
  set (pad_l := (m - width image) / 2).
  set (pad_t := (m - height image) / 2).
  assert (Hw : 0 <= width image).
  { destruct (rows image) as [|r rs] eqn:R.
    - unfold m in Hx. simpl in Hrows. lia.
    - inversion Hcols; subst. lia. }
  assert (Hh : 0 <= height image) by lia.
  assert (Hl : 0 <= pad_l) by (apply Z.div_pos; lia).
  assert (Ht : 0 <= pad_t) by (apply Z.div_pos; lia).
  simpl rows. simpl fst. simpl snd.
  replace ((x <? 0) || (y <? 0)) with false
    by (symmetry; apply orb_false_iff; split; apply Z.ltb_ge; lia).
  rewrite nth_error_paste_at.
  rewrite nth_error_repeat by lia.
  destruct (Nat.leb_spec (Z.to_nat pad_t) (Z.to_nat y)) as [Hty|Hty].
  - destruct (nth_error (rows image) (Z.to_nat y - Z.to_nat pad_t))
      as [srow|] eqn:Hrow.
    + assert (Hlen : Z.of_nat (length srow) = width image).
      { rewrite Forall_forall in Hcols. apply Hcols.
        eapply nth_error_In; eassumption. }
      assert (Hy' : (Z.to_nat y - Z.to_nat pad_t < length (rows image))%nat).
      { apply nth_error_Some. congruence. }
      rewrite nth_error_paste_at.
      rewrite nth_error_repeat by lia.
      replace (pad_t <=? y) with true by (symmetry; apply Z.leb_le; lia).
      replace (y <? pad_t + height image) with true
        by (symmetry; apply Z.ltb_lt; lia).
      rewrite !andb_true_r.
      destruct (Nat.leb_spec (Z.to_nat pad_l) (Z.to_nat x)) as [Hlx|Hlx].
      * replace (pad_l <=? x) with true by (symmetry; apply Z.leb_le; lia).
        simpl andb.
        destruct (nth_error srow (Z.to_nat x - Z.to_nat pad_l))
          as [p|] eqn:Hp.
        -- assert (Hx' : (Z.to_nat x - Z.to_nat pad_l < length srow)%nat).
           { apply nth_error_Some. congruence. }
           replace (x <? pad_l + width image) with true
             by (symmetry; apply Z.ltb_lt; lia).
           replace ((x - pad_l <? 0) || (y - pad_t <? 0)) with false
             by (symmetry; apply orb_false_iff; split; apply Z.ltb_ge; lia).
           replace (Z.to_nat (y - pad_t))
             with (Z.to_nat y - Z.to_nat pad_t)%nat by lia.
           rewrite Hrow.
           replace (Z.to_nat (x - pad_l))
             with (Z.to_nat x - Z.to_nat pad_l)%nat by lia.
           symmetry; exact Hp.
        -- apply nth_error_None in Hp.
           replace (x <? pad_l + width image) with false
             by (symmetry; apply Z.ltb_ge; lia).
           reflexivity.
      * replace (pad_l <=? x) with false by (symmetry; apply Z.leb_gt; lia).
        reflexivity.
    + apply nth_error_None in Hrow.
      rewrite nth_error_repeat by lia.
      replace (y <? pad_t + height image) with false
        by (symmetry; apply Z.ltb_ge; lia).
      rewrite andb_false_r. reflexivity.
  - rewrite nth_error_repeat by lia.
    replace (pad_t <=? y) with false by (symmetry; apply Z.leb_gt; lia).
    rewrite andb_false_r. reflexivity.
Qed.

Lemma as_f32_MEAN : as_f32 MEAN = MEAN32.
Proof. vm_compute. reflexivity. Qed.

Lemma as_f32_STD : as_f32 STD = STD32.
Proof. vm_compute. reflexivity. Qed.

Lemma f255_bits : f255 = S754_finite false 16711680 (-16).
Proof. vm_compute. reflexivity. Qed.

Lemma _prepare_image_unfold X image target :
  _prepare_image X image target =
  (canvas <- (if negb (Z.max (width image) (height image) =? target)
              then resize_bicubic X (square_pad image) (target, target)
              else Ok (square_pad image)) ;;
   Ok (model_input canvas)).
Proof.
  unfold _prepare_image, square_pad, width, height.
  destruct (size image) as [w h]. reflexivity.
Qed.

Lemma tensor_at_model_input (canvas : Image) (ch y x : nat) :
  (ch < 3)%nat ->
  tensor_at (model_input canvas) ch y x =
  option_map (fun p => normalized_value ch (channel ch p))
             (getpixel canvas (Z.of_nat x) (Z.of_nat y)).
Proof.
  intros Hch.
  unfold model_input, normalize, pil_to_tensor, tensor_map, getpixel,
    normalized_value.
  rewrite as_f32_MEAN, as_f32_STD, f255_bits.
  replace ((Z.of_nat x <? 0) || (Z.of_nat y <? 0)) with false
    by (symmetry; apply orb_false_iff; split; apply Z.ltb_ge; lia).
  rewrite !Nat2Z.id.
  unfold MEAN32, STD32, tensor_at.
  cbn [combine map map2 fst snd].
  destruct ch as [|[|[|ch]]]; [ | | | lia];
    cbn [nth_error nth channel];
    rewrite !nth_error_map;
    (destruct (nth_error (rows canvas) y) as [r|]; cbn [option_map];
     [|reflexivity]);
    rewrite !nth_error_map;
    (destruct (nth_error r x) as [p|]; reflexivity).
Qed.

(** C4: on an image of width [w] and height [h], [_prepare_image]
    builds an [m] x [m] canvas, [m = max w h], that shows the image at
    the offsets [(m - w) / 2] and [(m - h) / 2] and white elsewhere;
    the canvas is resized (bicubic) to target x target exactly when
    [m <> target]; every value of the result is the byte of the final
    canvas divided by 255, minus the mean of its channel, divided by
    the std of its channel, in float32, with the constants of the
    source; the result is a function of the image and the target. *)
Theorem prepare_image_pads_resizes_normalizes X image target :
  image_wf image ->
  let m := Z.max (width image) (height image) in
  exists canvas,
    size canvas = (m, m) /\
    (forall x y, 0 <= x < m -> 0 <= y < m ->
       getpixel canvas x y = padded_pixel image x y) /\
    match (if m =? target then Ok canvas
           else resize_bicubic X canvas (target, target)) with
    | Ok final =>
        exists t,
          _prepare_image X image target = Ok t /\
          length t = 3%nat /\
          forall ch y x, (ch < 3)%nat ->
            tensor_at t ch y x =
            option_map (fun p => normalized_value ch (channel ch p))
                       (getpixel final (Z.of_nat x) (Z.of_nat y))
    | Err e => _prepare_image X image target = Err e
    end.
Proof.
  intros Hwf m. exists (square_pad image).
  split; [reflexivity|].
  split; [intros x y Hx Hy; apply getpixel_square_pad; assumption|].
  rewrite _prepare_image_unfold. fold m.
  destruct (m =? target); cbn [negb].
  - exists (model_input (square_pad image)).
    split; [reflexivity | split; [reflexivity|]].
    intros ch y x Hch. apply tensor_at_model_input; assumption.
  - destruct (resize_bicubic X (square_pad image) (target, target))
      as [final|e]; [|reflexivity].
    exists (model_input final).
    split; [reflexivity | split; [reflexivity|]].
    intros ch y x Hch. apply tensor_at_model_input; assumption.
Qed.

Lemma prepare_image_pads_resizes_normalizes_witness :
  image_wf Sample.wide /\
  exists canvas,
    size canvas = (3, 3) /\
    getpixel canvas 1 0 = Some white /\
    getpixel canvas 1 1 = Some (0, 255, 0) /\
    exists t, _prepare_image Sample.X Sample.wide 3 = Ok t /\
              tensor_at t 1 1 1 = Some (normalized_value 1 255).
Proof.
  assert (Hwf : image_wf Sample.wide)
    by (split; [reflexivity | repeat constructor]).
  split; [exact Hwf|].
  destruct (prepare_image_pads_resizes_normalizes Sample.X Sample.wide 3 Hwf)
    as (canvas & Hsize & Hpix & Hrun).
  exists canvas. split; [exact Hsize|].
  assert (H10 : getpixel canvas 1 0 = Some white)
    by (rewrite Hpix; [reflexivity | vm_compute; split; congruence
                                   | vm_compute; split; congruence]).
  assert (H11 : getpixel canvas 1 1 = Some (0, 255, 0))
    by (rewrite Hpix; [reflexivity | vm_compute; split; congruence
                                   | vm_compute; split; congruence]).
  split; [exact H10 | split; [exact H11|]].
  change (Z.max (width Sample.wide) (height Sample.wide) =? 3) with true
    in Hrun.
  destruct Hrun as (t & Ht & _ & Hval).
  exists t. split; [exact Ht|].
  rewrite (Hval 1%nat 1%nat 1%nat (le_S _ _ (le_n 2))).
  change (Z.of_nat 1) with 1. rewrite H11. reflexivity.
Defined.

(** ** Handler computations *)

Lemma h_bind_lift_Ok {A B} (a : A) (k : A -> handler B) :
  h_bind (lift (Ok a)) k = k a.
Proof. unfold h_bind, lift. destruct (k a). reflexivity. Qed.

Lemma h_bind_lift_Err {A B} (e : exn) (k : A -> handler B) :
  h_bind (lift (Err e)) k = ([], Raise e).
Proof. reflexivity. Qed.

Lemma h_bind_perform_Ok {A B} (ev : event) (a : A) (k : A -> handler B) :
  h_bind (perform ev (Ok a)) k = (ev :: fst (k a), snd (k a)).
Proof. unfold h_bind, perform. destruct (k a). reflexivity. Qed.

Lemma h_bind_Next_inv {A B} (c : handler A) (k : A -> handler B) (b : B) :
  snd (h_bind c k) = Next b ->
  exists a, snd c = Next a /\ snd (k a) = Next b.
Proof.
  destruct c as [t [a|r|e]]; simpl; try discriminate.
  destruct (k a) as [t' r'] eqn:K. simpl. intros ->.
  exists a. rewrite K. auto.
Qed.

Lemma h_bind_Return_inv {A B} (c : handler A) (k : A -> handler B) r :
  snd (h_bind c k) = Return r ->
  snd c = Return r \/ exists a, snd c = Next a /\ snd (k a) = Return r.
Proof.
  destruct c as [t [a|r'|e]]; simpl; try discriminate.
  - destruct (k a) as [t' r''] eqn:K. simpl. intros ->.
    right. exists a. rewrite K. auto.
  - intros [= ->]. auto.
Qed.

Lemma lift_not_Return {A} (x : res A) r : snd (lift x) <> Return r.
Proof. destruct x; discriminate. Qed.

Lemma perform_not_Return {A} ev (x : res A) r : snd (perform ev x) <> Return r.
Proof. destruct x; discriminate. Qed.

Lemma resolve_image_json X g req v d :
  is_json req = true -> get_json req = Ok v ->
  (if truthy v then v else PDict []) = PDict d ->
  resolve_image X g req = resolve_json X g d.
Proof.
  intros J G D. unfold resolve_image. rewrite J, G, h_bind_lift_Ok, D.
  rewrite h_bind_lift_Ok. reflexivity.
Qed.

Lemma dict_get_Some_truthy (d : dict pyval) k v :
  dict_get d k = Some v -> (if truthy (PDict d) then PDict d else PDict []) = PDict d.
Proof. destruct d; [discriminate | reflexivity]. Qed.

(** ** Claims on [/api/v1/tag] *)

(** C6, as stated, fails: the JSON body [{"threshold": null}] has
    neither [file_key] nor [image_url], and the answer is a 500 that
    carries the text of the TypeError of [float(None)]. *)
Lemma missing_sources_counterexample :
  is_json Sample.null_threshold_request = true /\
  get_json Sample.null_threshold_request
  = Ok (PDict [(py "threshold", PNone)]) /\
  dict_mem [(py "threshold", PNone)] (py "file_key") = false /\
  dict_mem [(py "threshold", PNone)] (py "image_url") = false /\
  snd (api_tag Sample.X Sample.ready 0 Sample.null_threshold_request)
  = error_response 500
      (py "float() argument must be a string or a real number, not 'NoneType'") /\
  snd (api_tag Sample.X Sample.ready 0 Sample.null_threshold_request)
  <> error_response 400 (py "missing file_key or image_url").
Proof.
  repeat split; try (vm_compute; reflexivity).
  vm_compute. discriminate.
Qed.

(** C6, amended: a JSON tagging request whose body, after [or {}], is an
    object with neither [file_key] nor [image_url], and whose
    [threshold], when present, converts to a float, is answered 400 with
    body [{"error": "missing file_key or image_url"}], and nothing
    outside is touched. *)
Theorem missing_sources_is_client_error X g call req v d :
  is_json req = true ->
  get_json req = Ok v ->
  (if truthy v then v else PDict []) = PDict d ->
  dict_get d (py "file_key") = None ->
  dict_get d (py "image_url") = None ->
  (forall t, dict_get d (py "threshold") = Some t ->
             exists f, py_float X t = Ok f) ->
  api_tag X g call req
  = ([], error_response 400 (py "missing file_key or image_url")).
Proof.
  intros J G D FK URL TH.
  unfold api_tag, api_tag_try.
  rewrite (resolve_image_json X g req v d J G D).
  unfold resolve_json. rewrite FK, URL.
  destruct (dict_get d (py "threshold")) as [t|].
  - destruct (TH t eq_refl) as [f ->]. reflexivity.
  - reflexivity.
Qed.

Lemma missing_sources_is_client_error_witness :
  api_tag Sample.X Sample.ready 0
    (Sample.json_request (PDict [(py "threshold", PStr (py "0.5"))]))
  = ([], error_response 400 (py "missing file_key or image_url")).
Proof.
  apply (missing_sources_is_client_error Sample.X Sample.ready 0
           (Sample.json_request (PDict [(py "threshold", PStr (py "0.5"))]))
           (PDict [(py "threshold", PStr (py "0.5"))])
           [(py "threshold", PStr (py "0.5"))]);
    try reflexivity.
  intros t H. vm_compute in H. injection H as <-.
  exists (float_literal 5 1). reflexivity.
Defined.

(** C1, as stated, fails: a JSON request whose [image_url] is answered
    404 gets a 500 with the text of the HTTPError, not a 400. *)
Lemma failed_fetch_counterexample :
  is_json Sample.missing_url_request = true /\
  get_json Sample.missing_url_request
  = Ok (PDict [(py "image_url", PStr Sample.missing_url)]) /\
  requests_get Sample.X (PStr Sample.missing_url) 30
  = Ok (mkHttpResponse 404 (py "Not Found") Sample.missing_url []) /\
  api_tag Sample.X Sample.ready 0 Sample.missing_url_request
  = ([EvGet (PStr Sample.missing_url) 30;
      EvLogException
        (Exn "HTTPError"
           (py "404 Client Error: Not Found for url: http://img.test/missing.png"))],
     error_response 500
       (py "404 Client Error: Not Found for url: http://img.test/missing.png")) /\
  status (snd (api_tag Sample.X Sample.ready 0 Sample.missing_url_request))
  <> 400.
Proof.
  repeat split; try (vm_compute; reflexivity).
  vm_compute. discriminate.
Qed.

(** A status outside 4xx and 5xx is not an error for
    [raise_for_status], 2xx or not. *)
Lemma raise_for_status_accepts (r : HttpResponse) :
  status_code r < 400 \/ 600 <= status_code r ->
  raise_for_status r = Ok tt.
Proof.
  intros H. unfold raise_for_status.
  destruct (Z.leb_spec 400 (status_code r));
    destruct (Z.ltb_spec (status_code r) 500);
    destruct (Z.leb_spec 500 (status_code r));
    destruct (Z.ltb_spec (status_code r) 600); cbn [andb]; try reflexivity; lia.
Qed.

Lemma raise_for_status_rejects (r : HttpResponse) :
  (400 <=? status_code r) && (status_code r <? 600) = true ->
  exists e, raise_for_status r = Err e.
Proof.
  intros F. apply andb_true_iff in F. destruct F as [F4 F6].
  unfold raise_for_status. rewrite F4, F6.
  destruct (status_code r <? 500) eqn:F5; cbn [andb].
  - eexists; reflexivity.
  - replace (500 <=? status_code r) with true
      by (symmetry; apply Z.leb_le; apply Z.ltb_ge in F5; lia).
    eexists; reflexivity.
Qed.

(** C1, amended: a JSON tagging request without [file_key], whose
    [threshold] (when present) converts to a float and whose
    [image_url] cannot be fetched ([requests.get] raises, or the status
    is 4xx or 5xx and [raise_for_status] raises), makes that one GET,
    logs the exception the fetch ended with and is answered 500 with
    the text of that exception as its error message. *)
Theorem failed_fetch_is_server_error X g call req d u f :
  is_json req = true ->
  get_json req = Ok (PDict d) ->
  dict_get d (py "file_key") = None ->
  dict_get d (py "image_url") = Some u ->
  py_float X match dict_get d (py "threshold") with
             | Some w => w
             | None => PFloat (THRESHOLD_DEFAULT g)
             end = Ok f ->
  fetch_failed X u = true ->
  exists e,
    fetch_exception X u = Some e /\
    api_tag X g call req
    = ([EvGet u 30; EvLogException e], error_response 500 (exn_msg e)).
Proof.
  intros J G FK URL T F.
  unfold api_tag, api_tag_try.
  rewrite (resolve_image_json X g req _ d J G (dict_get_Some_truthy _ _ _ URL)).
  unfold resolve_json. rewrite T, h_bind_lift_Ok, FK, URL.
  unfold fetch_failed in F. unfold fetch_exception.
  destruct (requests_get X u 30) as [r|e].
  2:{ exists e. split; reflexivity. }
  rewrite h_bind_perform_Ok.
  destruct (raise_for_status_rejects r F) as [e ->].
  rewrite h_bind_lift_Err.
  exists e. split; reflexivity.
Qed.

Lemma failed_fetch_is_server_error_witness :
  exists e,
    fetch_exception Sample.X (PStr Sample.missing_url) = Some e /\
    api_tag Sample.X Sample.ready 0 Sample.missing_url_request
    = ([EvGet (PStr Sample.missing_url) 30; EvLogException e],
       error_response 500 (exn_msg e)).
Proof.
  apply (failed_fetch_is_server_error Sample.X Sample.ready 0
           Sample.missing_url_request
           [(py "image_url", PStr Sample.missing_url)]
           (PStr Sample.missing_url) (float_literal 4 1)); reflexivity.
Defined.

Lemma resolve_json_file_key_no_fetch X g d fk :
  dict_get d (py "file_key") = Some fk ->
  no_fetch (fst (resolve_json X g d)).
Proof.
  intros FK u timeout. unfold resolve_json. rewrite FK.
  destruct (py_float X _) as [th|e]; [|simpl; tauto].
  rewrite h_bind_lift_Ok.
  destruct fk; try (simpl; tauto).
  rewrite h_bind_lift_Ok.
  destruct (path_exists X _) as [[|]|e]; [| |simpl; intuition discriminate];
    rewrite h_bind_perform_Ok; cbn [negb].
  - destruct (open_path X _); simpl; intuition discriminate.
  - simpl; intuition discriminate.
Qed.

Lemma api_tag_no_fetch X g call req :
  no_fetch (fst (resolve_image X g req)) ->
  no_fetch (fst (api_tag X g call req)).
Proof.
  intros H u timeout. unfold api_tag, api_tag_try.
  destruct (resolve_image X g req) as [t [[th [img|]]|r|e]];
    simpl in H; specialize (H u timeout).
  - cbn [h_bind].
    destruct (_predict_image X g call img th) as [[tags scores]|e]; simpl;
      rewrite ?app_nil_r; [assumption|].
    rewrite in_app_iff. simpl. intuition discriminate.
  - simpl. rewrite app_nil_r. assumption.
  - simpl. assumption.
  - simpl. rewrite in_app_iff. simpl. intuition discriminate.
Qed.

Lemma py_threshold_neq_image_url : py "threshold" <> py "image_url".
Proof. vm_compute. discriminate. Qed.

Lemma py_file_key_neq_image_url : py "file_key" <> py "image_url".
Proof. vm_compute. discriminate. Qed.

(** C5: when the JSON body has both [file_key] and [image_url], no
    HTTP GET is made, and the events and the response are those of the
    same request with [image_url] deleted from the body.  When the
    [file_key] is a string and the threshold converts, the image is the
    one opened at the path of the [file_key] under the files root: that
    path is tested; a missing path is answered 400; otherwise the file
    at that path is opened and the image read from it is the one
    tagged. *)
Theorem file_key_takes_priority X g call req d fk u :
  is_json req = true ->
  get_json req = Ok (PDict d) ->
  dict_get d (py "file_key") = Some fk ->
  dict_get d (py "image_url") = Some u ->
  no_fetch (fst (api_tag X g call req)) /\
  api_tag X g call req
  = api_tag X g call
      (mkRequest true (Ok (PDict (dict_del d (py "image_url"))))
                 (files req) (form req)) /\
  (forall k f,
     fk = PStr k ->
     py_float X match dict_get d (py "threshold") with
                | Some w => w
                | None => PFloat (THRESHOLD_DEFAULT g)
                end = Ok f ->
     let p := path_join X (env_files_root X) k in
     api_tag X g call req =
     match path_exists X p with
     | Err e => ([EvExists p; EvLogException e],
                 error_response 500 (exn_msg e))
     | Ok false => ([EvExists p],
                    error_response 400 (py "file not found: " ++ p))
     | Ok true =>
         match open_path X p with
         | Err e => ([EvExists p; EvOpenPath p; EvLogException e],
                     error_response 500 (exn_msg e))
         | Ok image =>
             match _predict_image X g call image f with
             | Ok (tags, scores) =>
                 ([EvExists p; EvOpenPath p],
                  tagging_response f tags scores (elapsed_ms X))
             | Err e => ([EvExists p; EvOpenPath p; EvLogException e],
                         error_response 500 (exn_msg e))
             end
         end
     end).
Proof.
  intros J G FK URL.
  pose proof (resolve_image_json X g req _ d J G
                (dict_get_Some_truthy _ _ _ FK)) as R.
  assert (FK' : dict_get (dict_del d (py "image_url")) (py "file_key")
                = Some fk).
  { rewrite dict_get_del_other by apply py_file_key_neq_image_url.
    exact FK. }
  pose proof (resolve_image_json X g
                (mkRequest true (Ok (PDict (dict_del d (py "image_url"))))
                           (files req) (form req))
                _ _ eq_refl eq_refl (dict_get_Some_truthy _ _ _ FK')) as R'.
  split; [|split].
  - apply api_tag_no_fetch. rewrite R.
    eapply resolve_json_file_key_no_fetch; eassumption.
  - unfold api_tag, api_tag_try. rewrite R, R'.
    unfold resolve_json. rewrite FK, FK'.
    rewrite dict_get_del_other by apply py_threshold_neq_image_url.
    reflexivity.
  - intros k f -> T p.
    unfold api_tag, api_tag_try. rewrite R.
    unfold resolve_json. rewrite T, h_bind_lift_Ok, FK.
    cbv zeta. rewrite h_bind_lift_Ok. fold p.
    destruct (path_exists X p) as [[|]|e]; [| |reflexivity];
      rewrite h_bind_perform_Ok; cbn [negb].
    + destruct (open_path X p) as [image|e]; [|reflexivity].
      cbv beta iota zeta delta [h_bind perform next fst snd app].
      destruct (_predict_image X g call image f) as [[tags scores]|e];
        reflexivity.
    + reflexivity.
Qed.

Lemma file_key_takes_priority_witness :
  no_fetch (fst (api_tag Sample.X Sample.ready 0
                   (Sample.json_request (PDict Sample.both_sources)))) /\
  api_tag Sample.X Sample.ready 0
    (Sample.json_request (PDict Sample.both_sources))
  = api_tag Sample.X Sample.ready 0
      (Sample.json_request (PDict [(py "file_key", PStr (py "cat.png"))])) /\
  api_tag Sample.X Sample.ready 0
    (Sample.json_request (PDict Sample.both_sources))
  = ([EvExists (py "/srv/data/cat.png"); EvOpenPath (py "/srv/data/cat.png")],
     tagging_response (float_literal 4 1) [py "cat"; py "dog"]
       [(py "cat", S754_finite false 6755399441055744 (-53));
        (py "dog", Sample.half);
        (py "tree", S754_finite false 4503599627370496 (-54))] 12).
Proof.
  destruct (file_key_takes_priority Sample.X Sample.ready 0
              (Sample.json_request (PDict Sample.both_sources))
              Sample.both_sources
              (PStr (py "cat.png")) (PStr Sample.missing_url)
              eq_refl eq_refl eq_refl eq_refl) as (H1 & H2 & H3).
  split; [exact H1 | split; [exact H2|]].
  exact (H3 (py "cat.png") (float_literal 4 1) eq_refl eq_refl).
Defined.

(** C9: the threshold is parsed differently by content type.  A
    multipart request whose [threshold] field [float] rejects is handled
    exactly as the same upload sent without form fields, that is with
    the process default and without an error from the parse: when its
    image decodes and inference succeeds the answer is 200 and reports
    the default threshold.  A JSON request whose [threshold] value
    [float] rejects is answered 500 with the text of that exception. *)
Theorem threshold_parsing_depends_on_content_type X g call :
  (forall req s e,
     is_json req = false ->
     dict_get (form req) (py "threshold") = Some s ->
     float_of_str X s = Err e ->
     api_tag X g call req
     = api_tag X g call (mkRequest false (get_json req) (files req) []) /\
     (forall upload img ps,
        dict_get (files req) (py "image") = Some upload ->
        open_bytes X upload = Ok img ->
        _predict_image X g call img (THRESHOLD_DEFAULT g) = Ok ps ->
        status (snd (api_tag X g call req)) = 200 /\
        exists b, body (snd (api_tag X g call req)) = PDict b /\
                  dict_get b (py "threshold")
                  = Some (PFloat (THRESHOLD_DEFAULT g)))) /\
  (forall req d v e,
     is_json req = true ->
     get_json req = Ok (PDict d) ->
     dict_get d (py "threshold") = Some v ->
     py_float X v = Err e ->
     api_tag X g call req
     = ([EvLogException e], error_response 500 (exn_msg e))).
Proof.
  split.
  - intros req s e J F E.
    assert (R : resolve_image X g req
                = resolve_image X g
                    (mkRequest false (get_json req) (files req) [])).
    { unfold resolve_image, resolve_multipart.
      cbn [is_json files form dict_get].
      rewrite J, F. cbn [py_float]. rewrite E. reflexivity. }
    split.
    + unfold api_tag, api_tag_try. rewrite R. reflexivity.
    + intros upload img [tags scores] U O P.
      unfold api_tag, api_tag_try, resolve_image, resolve_multipart.
      rewrite J, U, F. cbn [py_float]. rewrite E, O.
      rewrite h_bind_perform_Ok. cbn [h_bind next fst snd].
      rewrite P. cbn [lift].
      split; [reflexivity|].
      eexists. split; reflexivity.
  - intros req d v e J G T E.
    unfold api_tag, api_tag_try.
    rewrite (resolve_image_json X g req _ d J G (dict_get_Some_truthy _ _ _ T)).
    unfold resolve_json. rewrite T, E. reflexivity.
Qed.

Lemma threshold_parsing_depends_on_content_type_witness :
  (api_tag Sample.X Sample.ready 0 (Sample.upload_request (Some Sample.nan_text))
   = api_tag Sample.X Sample.ready 0 (Sample.upload_request None) /\
   status (snd (api_tag Sample.X Sample.ready 0
                  (Sample.upload_request (Some Sample.nan_text)))) = 200) /\
  api_tag Sample.X Sample.ready 0
    (Sample.json_request (PDict [(py "threshold", PStr Sample.nan_text)]))
  = ([EvLogException
        (Exn "ValueError" (py "could not convert string to float: 'abc'"))],
     error_response 500 (py "could not convert string to float: 'abc'")).
Proof.
  pose proof (threshold_parsing_depends_on_content_type
                Sample.X Sample.ready 0) as [M J].
  split.
  - destruct (M (Sample.upload_request (Some Sample.nan_text))
                Sample.nan_text
                (Exn "ValueError"
                   (py "could not convert string to float: 'abc'"))
                eq_refl eq_refl eq_refl) as [Same Run].
    split; [exact Same|].
    apply (Run [255%N; 216%N] Sample.wide
             ([py "cat"; py "dog"],
              [(py "cat", S754_finite false 6755399441055744 (-53));
               (py "dog", Sample.half);
               (py "tree", S754_finite false 4503599627370496 (-54))]));
      vm_compute; reflexivity.
  - apply (J (Sample.json_request
                (PDict [(py "threshold", PStr Sample.nan_text)]))
             [(py "threshold", PStr Sample.nan_text)]
             (PStr Sample.nan_text)
             (Exn "ValueError"
                (py "could not convert string to float: 'abc'")));
      reflexivity.
Defined.

(** C10: whenever the dispatch of [api_tag] falls through to the check
    of [image], the image is not [None]; the handler never answers
    [{"error": "no image resolved"}] with status 400. *)
Theorem no_image_resolved_is_unreachable X g call req :
  (forall threshold image,
     snd (resolve_image X g req) = Next (threshold, image) ->
     image <> None) /\
  snd (api_tag X g call req) <> error_response 400 (py "no image resolved").
Proof.
  assert (Hnext : forall threshold image,
            snd (resolve_image X g req) = Next (threshold, image) ->
            image <> None).
  { intros th image. unfold resolve_image, resolve_multipart, resolve_json.
    destruct (is_json req).
    - intros H.
      repeat (apply h_bind_Next_inv in H; destruct H as (? & _ & H)).
      destruct (dict_get _ (py "file_key")).
      + repeat (apply h_bind_Next_inv in H; destruct H as (? & _ & H)).
        destruct (negb _); [discriminate|].
        apply h_bind_Next_inv in H. destruct H as (? & _ & H).
        injection H as _ <-. discriminate.
      + destruct (dict_get _ (py "image_url")); [|discriminate].
        repeat (apply h_bind_Next_inv in H; destruct H as (? & _ & H)).
        injection H as _ <-. discriminate.
    - destruct (dict_get (files req) (py "image")); [|discriminate].
      intros H. apply h_bind_Next_inv in H. destruct H as (? & _ & H).
      injection H as _ <-. discriminate. }
  split; [exact Hnext|].
  assert (Hret : forall r, snd (resolve_image X g req) = Return r ->
            r <> error_response 400 (py "no image resolved")).
  { intros r. unfold resolve_image, resolve_multipart, resolve_json.
    destruct (is_json req).
    - intros H.
      apply h_bind_Return_inv in H.
      destruct H as [H|(? & _ & H)]; [apply lift_not_Return in H; tauto|].
      apply h_bind_Return_inv in H.
      destruct H as [H|(? & _ & H)]; [apply lift_not_Return in H; tauto|].
      apply h_bind_Return_inv in H.
      destruct H as [H|(? & _ & H)]; [apply lift_not_Return in H; tauto|].
      destruct (dict_get _ (py "file_key")).
      + apply h_bind_Return_inv in H.
        destruct H as [H|(? & _ & H)]; [apply lift_not_Return in H; tauto|].
        apply h_bind_Return_inv in H.
        destruct H as [H|(? & _ & H)];
          [apply perform_not_Return in H; tauto|].
        destruct (negb _).
        * injection H as <-. vm_compute. discriminate.
        * apply h_bind_Return_inv in H.
          destruct H as [H|(? & _ & H)];
            [apply perform_not_Return in H; tauto | discriminate].
      + destruct (dict_get _ (py "image_url")).
        * apply h_bind_Return_inv in H.
          destruct H as [H|(? & _ & H)];
            [apply perform_not_Return in H; tauto|].
          apply h_bind_Return_inv in H.
          destruct H as [H|(? & _ & H)]; [apply lift_not_Return in H; tauto|].
          apply h_bind_Return_inv in H.
          destruct H as [H|(? & _ & H)];
            [apply perform_not_Return in H; tauto | discriminate].
        * injection H as <-. vm_compute. discriminate.
    - destruct (dict_get (files req) (py "image")).
      + intros H. apply h_bind_Return_inv in H.
        destruct H as [H|(? & _ & H)];
          [apply perform_not_Return in H; tauto | discriminate].
      + intros H. injection H as <-. vm_compute. discriminate. }
  unfold api_tag, api_tag_try.
  destruct (resolve_image X g req) as [t [[th [img|]]|r|e]].
  - cbn [h_bind].
    destruct (_predict_image X g call img th) as [[tags scores]|e];
      cbn [lift h_bind return_ snd]; discriminate.
  - exfalso. apply (Hnext th None); reflexivity.
  - cbn [h_bind snd]. apply Hret. reflexivity.
  - cbn [h_bind snd]. discriminate.
Qed.

Lemma no_image_resolved_is_unreachable_witness :
  snd (resolve_image Sample.X Sample.ready (Sample.upload_request None))
  = Next (THRESHOLD_DEFAULT Sample.ready, Some Sample.wide) /\
  Some Sample.wide <> None.
Proof.
  assert (H : snd (resolve_image Sample.X Sample.ready
                     (Sample.upload_request None))
              = Next (THRESHOLD_DEFAULT Sample.ready, Some Sample.wide))
    by reflexivity.
  split; [exact H|].
  exact (proj1 (no_image_resolved_is_unreachable Sample.X Sample.ready 0
                  (Sample.upload_request None))
           (THRESHOLD_DEFAULT Sample.ready) (Some Sample.wide) H).
Defined.

(** ** Claim on [/health] *)

(** C7: whatever the globals hold, [/health] answers 200 with status
    "ok", readiness "ready" when the model is loaded and "loading"
    otherwise, the device, the size of the vocabulary (0 while it is
    not loaded) and the version string. *)
Theorem health_always_ok (g : Globals) :
  status (health g) = 200 /\
  exists b,
    body (health g) = PDict b /\
    dict_get b (py "status") = Some (PStr (py "ok")) /\
    dict_get b (py "services")
    = Some (PDict [(py "joytag",
                    PStr (if match model g with Some _ => true | None => false end
                          then py "ready" else py "loading"))]) /\
    dict_get b (py "device") = Some (PStr (device g)) /\
    dict_get b (py "tags")
    = Some (PInt (Z.of_nat (length match top_tags g with
                                   | Some l => l
                                   | None => []
                                   end))) /\
    dict_get b (py "version") = Some (PStr (py "cb-joytag-bridge-1")).
Proof.
  split; [reflexivity|].
  eexists. split; [reflexivity|].
  repeat split.
  - destruct (model g); reflexivity.
  - destruct (top_tags g) as [[|t l]|]; reflexivity.
Qed.

(* ================================================================== *)
(** * Further properties of the code *)

(** ** The score mapping, continued *)

Lemma dict_get_set {V} (d : dict V) (k k' : pystr) (v : V) :
  dict_get (dict_set d k v) k' =
  if str_eqb k k' then Some v else dict_get d k'.
Proof.
  induction d as [|[k0 v0] d IH]; simpl.
  - reflexivity.
  - destruct (str_eqb k0 k) eqn:E0; simpl.
    + apply str_eqb_eq in E0; subst.
      destruct (str_eqb k k'); reflexivity.
    + destruct (str_eqb k0 k') eqn:E1.
      * apply str_eqb_eq in E1; subst.
        replace (str_eqb k k') with false; [reflexivity|].
        symmetry. apply str_eqb_neq. apply str_eqb_neq in E0. congruence.
      * exact IH.
Qed.

Lemma dict_set_fresh {V} (d : dict V) (k : pystr) (v : V) :
  dict_mem d k = false -> dict_set d k v = d ++ [(k, v)].
Proof.
  unfold dict_mem. induction d as [|[k0 v0] d IH]; simpl; [reflexivity|].
  destruct (str_eqb k0 k); [discriminate|].
  intros H. rewrite IH by assumption. reflexivity.
Qed.

Lemma scores_upto_step tags t n d k v :
  scores_upto tags t n = Ok d ->
  nth_error tags n = Some k -> nth_error t n = Some v ->
  scores_upto tags t (S n) = Ok (dict_set d k (float_of_f32 v)).
Proof.
  intros H K V. unfold scores_upto in *.
  rewrite seq_S, fold_left_app, H. simpl.
  unfold list_item, tensor_item. rewrite K, V. reflexivity.
Qed.

Lemma scores_upto_Err_S tags t n e :
  scores_upto tags t n = Err e -> scores_upto tags t (S n) = Err e.
Proof.
  intros H. unfold scores_upto in *.
  rewrite seq_S, fold_left_app, H. reflexivity.
Qed.

Lemma scores_upto_total tags t n :
  (n <= length tags)%nat -> (n <= length t)%nat ->
  exists d, scores_upto tags t n = Ok d.
Proof.
  induction n as [|n IH]; intros Hn Ht.
  - exists []. reflexivity.
  - destruct IH as [d Hd]; [lia | lia |].
    destruct (nth_error tags n) as [k|] eqn:K;
      [|apply nth_error_None in K; lia].
    destruct (nth_error t n) as [v|] eqn:V;
      [|apply nth_error_None in V; lia].
    eexists. eapply scores_upto_step; eassumption.
Qed.

Lemma scores_upto_short tags t n :
  (length t < n <= length tags)%nat ->
  scores_upto tags t n = Err (tensor_index_error (length t)).
Proof.
  induction n as [|n IH]; intros [Hlo Hhi]; [lia|].
  destruct (Nat.eq_dec n (length t)) as [->|Hne].
  - destruct (scores_upto_total tags t (length t)) as [d Hd]; [lia | lia |].
    unfold scores_upto in *.
    rewrite seq_S, fold_left_app, Hd. simpl.
    unfold list_item, tensor_item.
    destruct (nth_error tags (length t)) as [k|] eqn:K;
      [|apply nth_error_None in K; lia].
    simpl.
    replace (nth_error t (length t)) with (@None f32)
      by (symmetry; apply nth_error_None; lia).
    reflexivity.
  - apply scores_upto_Err_S. apply IH. lia.
Qed.

Lemma scores_upto_firstn tags t m n :
  (n <= m)%nat -> scores_upto tags (firstn m t) n = scores_upto tags t n.
Proof.
  destruct (Nat.le_gt_cases (length t) m) as [Hm|Hm].
  { intros _. rewrite firstn_all2 by assumption. reflexivity. }
  induction n as [|n IH]; intros Hn; [reflexivity|].
  unfold scores_upto in *. rewrite !seq_S, !fold_left_app, IH by lia.
  simpl.
  match goal with
  | |- context [fold_left ?f (seq 0 n) ?a] =>
      destruct (fold_left f (seq 0 n) a) as [d|e]
  end; simpl; [|reflexivity].
  destruct (list_item tags n) as [k|e]; simpl; [|reflexivity].
  unfold tensor_item. rewrite nth_error_firstn.
  destruct (Nat.ltb_spec n m); [|lia].
  destruct (nth_error t n) as [v|] eqn:V; [reflexivity|].
  apply nth_error_None in V. lia.
Qed.

(** X1: the score mapping can be built exactly when the score tensor is
    at least as long as the vocabulary; a shorter tensor ends the
    comprehension with the IndexError of its first missing index, and
    scores beyond the vocabulary are ignored. *)
Theorem build_scores_needs_enough_scores tags t :
  ((length tags <= length t)%nat ->
     exists d, build_scores tags t = Ok d /\
               build_scores tags (firstn (length tags) t) = Ok d) /\
  ((length t < length tags)%nat ->
     build_scores tags t = Err (tensor_index_error (length t))).
Proof.
  split.
  - intros Hle.
    destruct (scores_upto_total tags t (length tags)) as [d Hd]; [lia | lia |].
    exists d. split; [exact Hd|].
    unfold build_scores. rewrite scores_upto_firstn by lia. exact Hd.
  - intros Hlt. apply scores_upto_short. lia.
Qed.

Lemma build_scores_needs_enough_scores_witness :
  build_scores [py "cat"; py "dog"] [S754_zero false]
  = Err (tensor_index_error 1).
Proof.
  apply (proj2 (build_scores_needs_enough_scores
                  [py "cat"; py "dog"] [S754_zero false])).
  simpl. lia.
Defined.

Lemma scores_upto_last tags t n :
  forall d, scores_upto tags t n = Ok d ->
  forall i k v,
    (i < n)%nat -> nth_error tags i = Some k -> nth_error t i = Some v ->
    (forall j, (i < j < n)%nat -> nth_error tags j <> Some k) ->
    dict_get d k = Some (float_of_f32 v).
Proof.
  induction n as [|n IH]; intros d H i k v Hi K V Hlast; [lia|].
  apply scores_upto_S in H.
  destruct H as (d0 & k' & v' & H0 & K' & V' & ->).
  rewrite dict_get_set.
  destruct (Nat.eq_dec i n) as [->|Hne].
  - rewrite K in K'. injection K' as <-. rewrite V in V'. injection V' as <-.
    rewrite str_eqb_refl. reflexivity.
  - replace (str_eqb k' k) with false.
    + apply (IH d0 H0 i k v); try assumption; [lia|].
      intros j Hj. apply Hlast. lia.
    + symmetry. apply str_eqb_neq. intros ->.
      apply (Hlast n); [lia | assumption].
Qed.

(** X2: in the score mapping, a tag name carries the score found at the
    last position of that name in the vocabulary. *)
Theorem build_scores_last_occurrence_wins tags t d i k v :
  build_scores tags t = Ok d ->
  nth_error tags i = Some k ->
  nth_error t i = Some v ->
  (forall j, (i < j)%nat -> nth_error tags j <> Some k) ->
  dict_get d k = Some (float_of_f32 v).
Proof.
  intros H K V Hlast.
  apply (scores_upto_last tags t (length tags) d H i k v); try assumption.
  - apply nth_error_Some. congruence.
  - intros j Hj. apply Hlast. lia.
Qed.

Lemma build_scores_last_occurrence_wins_witness :
  dict_get [(py "a", S754_finite false 4503599627370496 (-54));
            (py "b", S754_finite false 4503599627370496 (-53))] (py "a")
  = Some (float_of_f32 (S754_finite false 8388608 (-25))).
Proof.
  apply (build_scores_last_occurrence_wins
           [py "a"; py "b"; py "a"]
           [S754_finite false 12582912 (-24);
            S754_finite false 8388608 (-24);
            S754_finite false 8388608 (-25)]
           _ 2%nat (py "a") (S754_finite false 8388608 (-25)));
    try (vm_compute; reflexivity).
  intros j Hj. destruct j as [|[|[|j]]]; try lia.
  simpl. rewrite nth_error_nil. discriminate.
Defined.

Lemma combine_firstn_snoc {A B} (l : list A) (l' : list B) n a b :
  nth_error l n = Some a -> nth_error l' n = Some b ->
  combine (firstn (S n) l) l' = combine (firstn n l) l' ++ [(a, b)].
Proof.
  revert l l'; induction n as [|n IH]; intros [|x l] [|y l']; simpl;
    try discriminate.
  - intros [= ->] [= ->]. destruct l; reflexivity.
  - intros Ha Hb. f_equal. apply (IH l l' Ha Hb).
Qed.

Lemma scores_upto_NoDup tags t n :
  NoDup tags -> (n <= length tags)%nat -> (n <= length t)%nat ->
  scores_upto tags t n
  = Ok (combine (firstn n tags) (map float_of_f32 t)).
Proof.
  intros ND. induction n as [|n IH]; intros Hn Ht; [reflexivity|].
  specialize (IH ltac:(lia) ltac:(lia)).
  destruct (nth_error tags n) as [k|] eqn:K;
    [|apply nth_error_None in K; lia].
  destruct (nth_error t n) as [v|] eqn:V;
    [|apply nth_error_None in V; lia].
  rewrite (scores_upto_step _ _ _ _ _ _ IH K V).
  rewrite dict_set_fresh.
  - rewrite (combine_firstn_snoc tags (map float_of_f32 t) n k (float_of_f32 v));
      [reflexivity | assumption |].
    rewrite nth_error_map, V. reflexivity.
  - destruct (dict_mem _ k) eqn:M; [|reflexivity].
    exfalso. apply dict_mem_In in M.
    unfold dict_keys in M. apply in_map_iff in M.
    destruct M as [[k0 v0] [E Hin]]. simpl in E; subst k0.
    apply in_combine_l in Hin.
    apply In_nth_error in Hin. destruct Hin as [j Hj].
    assert (Hjn : (j < n)%nat).
    { assert (j < length (firstn n tags))%nat
        by (apply nth_error_Some; congruence).
      rewrite length_firstn in H. lia. }
    rewrite nth_error_firstn in Hj.
    destruct (Nat.ltb_spec j n); [|lia].
    assert (j = n); [|lia].
    apply (proj1 (NoDup_nth_error tags) ND j n); [|congruence].
    apply nth_error_Some. congruence.
Qed.

(** X3: over a vocabulary without repeated names and a score tensor at
    least as long, the score mapping pairs the i-th tag with the i-th
    score, converted to a Python float, in the order of the
    vocabulary. *)
Theorem build_scores_zips_vocabulary tags t :
  NoDup tags -> (length tags <= length t)%nat ->
  build_scores tags t = Ok (combine tags (map float_of_f32 t)).
Proof.
  intros ND Hle. unfold build_scores.
  rewrite scores_upto_NoDup by (assumption || lia).
  rewrite firstn_all. reflexivity.
Qed.

Lemma build_scores_zips_vocabulary_witness :
  build_scores [py "cat"; py "dog"]
    [S754_zero false; S754_finite false 8388608 (-24); S754_nan]
  = Ok (combine [py "cat"; py "dog"]
          (map float_of_f32
             [S754_zero false; S754_finite false 8388608 (-24); S754_nan])).
Proof.
  apply (build_scores_zips_vocabulary [py "cat"; py "dog"]
           [S754_zero false; S754_finite false 8388608 (-24); S754_nan]).
  - repeat constructor; simpl; intuition discriminate.
  - simpl. lia.
Defined.

(** ** Thresholds *)

Ltac order_cases :=
  repeat match goal with
  | |- context [(?a ?= ?b)%Z] =>
      destruct (Z.compare_spec a b); subst
  | |- context [Pos.compare_cont Eq ?a ?b] =>
      change (Pos.compare_cont Eq a b) with (Pos.compare a b) in *;
      destruct (Pos.compare_spec a b); subst
  | H : context [(?a ?= ?b)%Z] |- _ =>
      destruct (Z.compare_spec a b); subst
  | H : context [Pos.compare_cont Eq ?a ?b] |- _ =>
      change (Pos.compare_cont Eq a b) with (Pos.compare a b) in *;
      destruct (Pos.compare_spec a b); subst
  end;
  cbn [CompOpp] in *; try discriminate; try reflexivity; try lia.

Lemma SFleb_trans (a b c : spec_float) :
  SFleb a b = true -> SFleb b c = true -> SFleb a c = true.
Proof.
  unfold SFleb.
  destruct a as [sa|sa| |sa ma ea], b as [sb|sb| |sb mb eb],
           c as [sc|sc| |sc mc ec]; simpl;
    try discriminate; try reflexivity;
    try (destruct sa; simpl; try discriminate; try reflexivity);
    try (destruct sb; simpl; try discriminate; try reflexivity);
    try (destruct sc; simpl; try discriminate; try reflexivity).
  all: intros H1 H2; order_cases.
Qed.

Lemma _predict_image_threshold X g call img th1 th2 p1 s1 :
  _predict_image X g call img th1 = Ok (p1, s1) ->
  p1 = select_tags s1 th1 /\
  _predict_image X g call img th2 = Ok (select_tags s1 th2, s1).
Proof.
  unfold _predict_image.
  destruct (model g) as [m|]; simpl; [|discriminate].
  destruct (_prepare_image X img (image_size m)) as [x|]; simpl; [|discriminate].
  destruct (_predict_tensor X g call x) as [t|]; simpl; [|discriminate].
  destruct (top_tags g) as [tags|]; simpl; [|discriminate].
  destruct (build_scores tags t) as [d|]; simpl; [|discriminate].
  intros [= <- <-]. split; reflexivity.
Qed.

(** X4: the threshold only selects: two runs that differ in the
    threshold alone return the same scores, and every tag predicted at
    the higher threshold is predicted at the lower one. *)
Theorem higher_threshold_predicts_fewer X g call img lo hi p s :
  float_ge hi lo = true ->
  _predict_image X g call img hi = Ok (p, s) ->
  exists p', _predict_image X g call img lo = Ok (p', s) /\ incl p p'.
Proof.
  intros Hle H.
  destruct (_predict_image_threshold X g call img hi lo p s H) as [-> H'].
  exists (select_tags s lo). split; [exact H'|].
  intros tg Hin. unfold select_tags in *.
  apply in_map_iff in Hin. destruct Hin as [[k sc] [<- Hin]].
  apply filter_In in Hin. destruct Hin as [Hin Hge].
  apply in_map_iff. exists (k, sc). split; [reflexivity|].
  apply filter_In. split; [assumption|].
  unfold float_ge in *. simpl in *. eapply SFleb_trans; eassumption.
Qed.

Lemma higher_threshold_predicts_fewer_witness :
  exists p',
    _predict_image Sample.X Sample.ready 0 Sample.wide (float_literal 4 1)
    = Ok (p', [(py "cat", S754_finite false 6755399441055744 (-53));
               (py "dog", Sample.half);
               (py "tree", S754_finite false 4503599627370496 (-54))]) /\
    incl [py "cat"; py "dog"] p'.
Proof.
  apply (higher_threshold_predicts_fewer Sample.X Sample.ready 0 Sample.wide
           (float_literal 4 1) Sample.half); vm_compute; reflexivity.
Defined.

(** X5: a NaN threshold (which the JSON parser of Python accepts)
    selects no tag at all, whatever the scores. *)
Theorem nan_threshold_predicts_nothing X g call img p s :
  _predict_image X g call img S754_nan = Ok (p, s) -> p = [].
Proof.
  intros H.
  destruct (_predict_image_threshold X g call img S754_nan S754_nan p s H)
    as [-> _].
  clear H. unfold select_tags. induction s as [|[k sc] s IH]; [reflexivity|].
  simpl. exact IH.
Qed.

Lemma nan_threshold_predicts_nothing_witness :
  exists p s,
    _predict_image Sample.X Sample.ready 0 Sample.wide S754_nan = Ok (p, s) /\
    p = [].
Proof.
  eexists. eexists.
  assert (H : _predict_image Sample.X Sample.ready 0 Sample.wide S754_nan
              = Ok ([], [(py "cat", S754_finite false 6755399441055744 (-53));
                         (py "dog", Sample.half);
                         (py "tree", S754_finite false 4503599627370496 (-54))]))
    by (vm_compute; reflexivity).
  split; [exact H|].
  exact (nan_threshold_predicts_nothing _ _ _ _ _ _ H).
Defined.

(** ** The handler of [/api/v1/tag], as a whole *)

Lemma api_tag_unfold X g call req :
  api_tag X g call req =
  match resolve_image X g req with
  | (t, Next (th, Some img)) =>
      match _predict_image X g call img th with
      | Ok (tags, scores) =>
          (t, tagging_response th tags scores (elapsed_ms X))
      | Err e => (t ++ [EvLogException e], error_response 500 (exn_msg e))
      end
  | (t, Next (th, None)) => (t, error_response 400 (py "no image resolved"))
  | (t, Return r) => (t, r)
  | (t, Raise e) => (t ++ [EvLogException e], error_response 500 (exn_msg e))
  end.
Proof.
  unfold api_tag, api_tag_try.
  destruct (resolve_image X g req) as [t [[th [img|]]|r|e]].
  - cbv beta iota zeta delta [h_bind].
    destruct (_predict_image X g call img th) as [[tags scores]|e];
      cbv beta iota zeta delta [lift return_];
      rewrite ?app_nil_r; reflexivity.
  - cbv beta iota zeta delta [h_bind return_]. rewrite app_nil_r. reflexivity.
  - reflexivity.
  - reflexivity.
Qed.

Lemma resolve_json_trace X g req d :
  is_json req = true -> resolve_trace X req (fst (resolve_json X g d)).
Proof.
  intros J. unfold resolve_json.
  destruct (py_float X _) as [th|e]; [|constructor].
  rewrite h_bind_lift_Ok.
  destruct (dict_get d (py "file_key")) as [fk|].
  - destruct fk; try constructor.
    rewrite h_bind_lift_Ok.
    destruct (path_exists X _) as [[|]|e] eqn:P;
      [| |apply trace_probe; assumption];
      rewrite h_bind_perform_Ok; cbn [negb].
    + destruct (open_path X _); cbn; apply trace_file; assumption.
    + cbn. apply trace_probe; assumption.
  - destruct (dict_get d (py "image_url")) as [u|]; [|constructor].
    destruct (requests_get X u 30) as [r|e] eqn:R;
      [|cbn; constructor; assumption].
    rewrite h_bind_perform_Ok.
    destruct (raise_for_status r) as [[]|e].
    + rewrite h_bind_lift_Ok.
      destruct (open_bytes X (content r)); cbn;
        apply (trace_fetch X req u r); assumption.
    + cbn. constructor; assumption.
Qed.

Lemma resolve_image_trace X g req :
  resolve_trace X req (fst (resolve_image X g req)).
Proof.
  unfold resolve_image. destruct (is_json req) eqn:J.
  - destruct (get_json req) as [v|e]; [|constructor].
    rewrite h_bind_lift_Ok.
    destruct (if truthy v then v else PDict []); try constructor.
    rewrite h_bind_lift_Ok. apply resolve_json_trace; assumption.
  - unfold resolve_multipart.
    destruct (dict_get (files req) (py "image")) as [b|] eqn:F; [|constructor].
    destruct (open_bytes X b); cbn; constructor; assumption.
Qed.

(** X6: a request touches at most one image source, in one of six
    ways: nothing; for a JSON request, an existence test, or an
    existence test that succeeded followed by the opening of the same
    path, or one GET with a timeout of 30 seconds, or that GET followed
    by the decoding of the content it returned; for any other request,
    the decoding of the uploaded field [image].  An exception log can
    follow, and only as the last event. *)
Theorem api_tag_trace_shape X g call req :
  exists t,
    resolve_trace X req t /\
    (fst (api_tag X g call req) = t \/
     exists e, fst (api_tag X g call req) = t ++ [EvLogException e]).
Proof.
  exists (fst (resolve_image X g req)).
  split; [apply resolve_image_trace|].
  rewrite api_tag_unfold.
  destruct (resolve_image X g req) as [t [[th [img|]]|r|e]]; cbn [fst].
  - destruct (_predict_image X g call img th) as [[tags scores]|e];
      cbn [fst]; [left; reflexivity | right; eexists; reflexivity].
  - left; reflexivity.
  - left; reflexivity.
  - right; eexists; reflexivity.
Qed.

Lemma resolve_trace_no_log X req t e :
  resolve_trace X req t -> ~ In (EvLogException e) t.
Proof. intros H; inversion H; simpl; intuition discriminate. Qed.

Ltac run_handler :=
  cbv beta iota zeta delta [h_bind perform lift next return_ app].

Lemma resolve_image_outcome X g req :
  resolve_outcome X g req (resolve_image X g req).
Proof.
  unfold resolve_image. destruct (is_json req) eqn:J.
  - destruct (get_json req) as [v|e] eqn:G; [|constructor].
    rewrite h_bind_lift_Ok.
    destruct (if truthy v then v else PDict []) as [| | | | | |d] eqn:D;
      try constructor.
    rewrite h_bind_lift_Ok. unfold resolve_json.
    destruct (py_float X _) as [th|e] eqn:T; [|constructor].
    rewrite h_bind_lift_Ok.
    assert (Hjson : is_json req = true ->
              exists v0 d0, get_json req = Ok v0 /\
                (if truthy v0 then v0 else PDict []) = PDict d0 /\
                py_float X match dict_get d0 (py "threshold") with
                           | Some w => w
                           | None => PFloat (THRESHOLD_DEFAULT g)
                           end = Ok th).
    { intros _. exists v, d. auto. }
    destruct (dict_get d (py "file_key")) as [fk|].
    + destruct fk; try constructor.
      rewrite h_bind_lift_Ok.
      destruct (path_exists X _) as [[|]|e] eqn:P; [| |constructor];
        rewrite h_bind_perform_Ok; cbn [negb].
      * destruct (open_path X _); run_handler; constructor;
          [exact Hjson | congruence].
      * run_handler. apply outcome_file_not_found; [exact J | exact P].
    + destruct (dict_get d (py "image_url")) as [u|].
      * destruct (requests_get X u 30) as [r|e]; [|constructor].
        rewrite h_bind_perform_Ok.
        destruct (raise_for_status r) as [[]|e]; [|constructor].
        rewrite h_bind_lift_Ok.
        destruct (open_bytes X (content r)); run_handler; constructor;
          [exact Hjson | congruence].
      * apply outcome_missing_sources. exact J.
  - unfold resolve_multipart.
    destruct (dict_get (files req) (py "image")) as [b|] eqn:F.
    + destruct (open_bytes X b); run_handler; constructor; try congruence.
      intros _. destruct (dict_get (form req) (py "threshold")); reflexivity.
    + apply outcome_missing_upload; [exact J | exact F].
Qed.

Lemma _predict_image_select X g call img th tags scores :
  _predict_image X g call img th = Ok (tags, scores) ->
  tags = select_tags scores th /\ NoDup (dict_keys scores).
Proof.
  intros H. apply _predict_image_ok in H.
  destruct H as (vocabulary & t & _ & B & ->).
  split; [reflexivity | apply (build_scores_keys _ _ _ B)].
Qed.

(** X7: every answer of [api_tag] has one of three forms.  200: the
    five keys, where [tag_count] is the number of predicted tags and the
    predicted tags are the names of [scores], each once, whose score
    meets the reported threshold.  400: the single key [error].  500:
    the single key [error] with the text of an exception. *)
Theorem api_tag_answers X g call req :
  (exists th tags scores,
     snd (api_tag X g call req)
     = tagging_response th tags scores (elapsed_ms X) /\
     tags = select_tags scores th /\ NoDup (dict_keys scores)) \/
  (exists msg, snd (api_tag X g call req) = error_response 400 msg) \/
  (exists e, snd (api_tag X g call req) = error_response 500 (exn_msg e)).
Proof.
  rewrite api_tag_unfold.
  destruct (resolve_image_outcome X g req) as [t th img _ _| | | |t e].
  - destruct (_predict_image X g call img th) as [[tags scores]|e] eqn:P.
    + left. exists th, tags, scores. split; [reflexivity|].
      apply (_predict_image_select _ _ _ _ _ _ _ P).
    + right; right. exists e; reflexivity.
  - right; left. eexists; reflexivity.
  - right; left. eexists; reflexivity.
  - right; left. eexists; reflexivity.
  - right; right. exists e; reflexivity.
Qed.

(** X8: a 400 is decided before any image is opened, fetched or
    tagged: the request left no trace, or a single existence test of a
    path that was found missing; its message is one of three. *)
Theorem client_error_comes_first X g call req :
  status (snd (api_tag X g call req)) = 400 ->
  (api_tag X g call req
   = ([], error_response 400 (py "missing file_key or image_url")) /\
   is_json req = true) \/
  (api_tag X g call req
   = ([], error_response 400 (py "no image file provided")) /\
   is_json req = false) \/
  (exists p,
     api_tag X g call req
     = ([EvExists p], error_response 400 (py "file not found: " ++ p)) /\
     path_exists X p = Ok false /\ is_json req = true).
Proof.
  rewrite api_tag_unfold.
  destruct (resolve_image_outcome X g req) as [t th img _ _|J|J F|p J P|t e].
  - destruct (_predict_image X g call img th) as [[tags scores]|e];
      cbn [snd status tagging_response error_response]; discriminate.
  - intros _. left. auto.
  - intros _. right; left. auto.
  - intros _. right; right. exists p. auto.
  - cbn [snd status error_response]. discriminate.
Qed.

Lemma client_error_comes_first_witness :
  (api_tag Sample.X Sample.ready 0 (Sample.json_request (PDict []))
   = ([], error_response 400 (py "missing file_key or image_url")) /\
   is_json (Sample.json_request (PDict [])) = true) \/
  (api_tag Sample.X Sample.ready 0 (Sample.json_request (PDict []))
   = ([], error_response 400 (py "no image file provided")) /\
   is_json (Sample.json_request (PDict [])) = false) \/
  (exists p,
     api_tag Sample.X Sample.ready 0 (Sample.json_request (PDict []))
     = ([EvExists p], error_response 400 (py "file not found: " ++ p)) /\
     path_exists Sample.X p = Ok false /\
     is_json (Sample.json_request (PDict [])) = true).
Proof.
  apply (client_error_comes_first Sample.X Sample.ready 0
           (Sample.json_request (PDict []))).
  reflexivity.
Defined.

(** X9: [api_tag] answers 500 exactly when it logged an exception; the
    log entry is then the last event and the answer carries the text of
    that exception. *)
Theorem server_error_iff_logged X g call req :
  (status (snd (api_tag X g call req)) = 500 <->
   exists e, In (EvLogException e) (fst (api_tag X g call req))) /\
  (forall e, In (EvLogException e) (fst (api_tag X g call req)) ->
     snd (api_tag X g call req) = error_response 500 (exn_msg e) /\
     exists t, fst (api_tag X g call req) = t ++ [EvLogException e]).
Proof.
  rewrite api_tag_unfold.
  pose proof (resolve_image_trace X g req) as T.
  assert (Hlog : forall t e e',
            resolve_trace X req t ->
            In (EvLogException e') (t ++ [EvLogException e]) -> e' = e).
  { intros t e e' Ht Hin. apply in_app_iff in Hin. destruct Hin as [Hin|Hin].
    - exfalso. eapply resolve_trace_no_log; eassumption.
    - destruct Hin as [E|[]]. congruence. }
  destruct (resolve_image_outcome X g req) as [t th img _ _|J|J F|p J P|t e];
    cbn [fst] in T.
  - destruct (_predict_image X g call img th) as [[tags scores]|e];
      cbn [fst snd status tagging_response error_response].
    + split; [split; [discriminate|]|].
      * intros [e Hin]. exfalso. eapply resolve_trace_no_log; eassumption.
      * intros e Hin. exfalso. eapply resolve_trace_no_log; eassumption.
    + split; [split; [intros _; exists e|reflexivity]|].
      * apply in_app_iff. right. simpl. auto.
      * intros e' Hin. rewrite (Hlog t e e' T Hin).
        split; [reflexivity | exists t; reflexivity].
  - cbn. split; [split; [discriminate | intros [e []]] | intros e []].
  - cbn. split; [split; [discriminate | intros [e []]] | intros e []].
  - cbn. split; [split; [discriminate|] |].
    + intros [e [E|[]]]. discriminate.
    + intros e [E|[]]. discriminate.
  - cbn [fst snd status error_response].
    split; [split; [intros _; exists e|reflexivity]|].
    + apply in_app_iff. right. simpl. auto.
    + intros e' Hin. rewrite (Hlog t e e' T Hin).
      split; [reflexivity | exists t; reflexivity].
Qed.

Lemma server_error_iff_logged_witness :
  snd (api_tag Sample.X Sample.ready 0 Sample.missing_url_request)
  = error_response 500
      (py "404 Client Error: Not Found for url: http://img.test/missing.png").
Proof.
  apply (proj2 (server_error_iff_logged Sample.X Sample.ready 0
                  Sample.missing_url_request)
           (Exn "HTTPError"
              (py "404 Client Error: Not Found for url: http://img.test/missing.png"))).
  vm_compute. auto.
Defined.

(** X10: the threshold a 200 answer reports is the one the request
    settled on: for a JSON request the conversion by [float] of the
    [threshold] of its body, or of the process default when the body
    has none; for any other request the form field [threshold] as read
    by [float], or the process default when the field is absent or
    rejected. *)
Theorem reported_threshold_precedence X g call req th tags scores dt :
  snd (api_tag X g call req) = tagging_response th tags scores dt ->
  (is_json req = true ->
     exists v d, get_json req = Ok v /\
                 (if truthy v then v else PDict []) = PDict d /\
                 py_float X match dict_get d (py "threshold") with
                            | Some w => w
                            | None => PFloat (THRESHOLD_DEFAULT g)
                            end = Ok th) /\
  (is_json req = false ->
     th = match dict_get (form req) (py "threshold") with
          | Some s => match float_of_str X s with
                      | Ok f => f
                      | Err _ => THRESHOLD_DEFAULT g
                      end
          | None => THRESHOLD_DEFAULT g
          end).
Proof.
  rewrite api_tag_unfold.
  destruct (resolve_image_outcome X g req)
    as [t th0 img Hj Hm|J|J F|p J P|t e]; cbn [snd];
    try discriminate.
  destruct (_predict_image X g call img th0) as [[tags0 scores0]|e];
    cbn [snd]; [|discriminate].
  intros E. injection E as _ _ <- _. auto.
Qed.

Lemma reported_threshold_precedence_witness :
  Sample.half
  = match dict_get (form (Sample.upload_request (Some (py "0.5"))))
            (py "threshold") with
    | Some s => match float_of_str Sample.X s with
                | Ok f => f
                | Err _ => THRESHOLD_DEFAULT Sample.ready
                end
    | None => THRESHOLD_DEFAULT Sample.ready
    end.
Proof.
  apply (proj2 (reported_threshold_precedence Sample.X Sample.ready 0
                  (Sample.upload_request (Some (py "0.5"))) Sample.half
                  [py "cat"; py "dog"]
                  [(py "cat", S754_finite false 6755399441055744 (-53));
                   (py "dog", Sample.half);
                   (py "tree", S754_finite false 4503599627370496 (-54))]
                  12 ltac:(vm_compute; reflexivity))).
  reflexivity.
Defined.

Lemma _predict_image_not_ready X g call img th :
  model g = None \/ top_tags g = None ->
  exists e, _predict_image X g call img th = Err e.
Proof.
  intros H. unfold _predict_image.
  destruct (model g) as [m|]; cbn [res_bind]; [|eexists; reflexivity].
  destruct H as [H|H]; [discriminate|].
  destruct (_prepare_image X img (image_size m)) as [x|e]; cbn [res_bind];
    [|eexists; reflexivity].
  destruct (_predict_tensor X g call x) as [t|e]; cbn [res_bind];
    [|eexists; reflexivity].
  rewrite H. cbn [res_bind]. eexists; reflexivity.
Qed.

(** X11: while the model or the vocabulary is not loaded (the state of
    the module before [initialize_model] has run), no tagging request
    is answered 200: one that resolves an image fails in
    [_predict_image] and is answered 500. *)
Theorem not_ready_never_tags X g call req :
  model g = None \/ top_tags g = None ->
  status (snd (api_tag X g call req)) = 400 \/
  status (snd (api_tag X g call req)) = 500.
Proof.
  intros H. rewrite api_tag_unfold.
  destruct (resolve_image_outcome X g req) as [t th img _ _|J|J F|p J P|t e];
    cbn [snd]; auto.
  destruct (_predict_image_not_ready X g call img th H) as [e ->].
  auto.
Qed.

Lemma not_ready_never_tags_witness :
  status (snd (api_tag Sample.X (mkGlobals None None (py "cpu") Sample.half) 0
                 (Sample.upload_request None))) = 400 \/
  status (snd (api_tag Sample.X (mkGlobals None None (py "cpu") Sample.half) 0
                 (Sample.upload_request None))) = 500.
Proof.
  apply (not_ready_never_tags Sample.X
           (mkGlobals None None (py "cpu") Sample.half) 0
           (Sample.upload_request None)).
  left. reflexivity.
Defined.

(** X12: a JSON request whose [threshold] (when present) converts to
    a float and whose [file_key] is a string that resolves to a path
    that does not exist is answered 400 with the resolved path in the
    message, after the existence test alone: nothing is opened, and an
    [image_url] in the same body is not used as a fallback. *)
Theorem missing_file_is_client_error X g call req d k f :
  is_json req = true ->
  get_json req = Ok (PDict d) ->
  dict_get d (py "file_key") = Some (PStr k) ->
  py_float X match dict_get d (py "threshold") with
             | Some w => w
             | None => PFloat (THRESHOLD_DEFAULT g)
             end = Ok f ->
  path_exists X (path_join X (env_files_root X) k) = Ok false ->
  api_tag X g call req
  = ([EvExists (path_join X (env_files_root X) k)],
     error_response 400
       (py "file not found: " ++ path_join X (env_files_root X) k)).
Proof.
  intros J G FK T P.
  unfold api_tag, api_tag_try.
  rewrite (resolve_image_json X g req _ d J G (dict_get_Some_truthy _ _ _ FK)).
  unfold resolve_json. rewrite T, h_bind_lift_Ok, FK.
  cbv zeta. rewrite h_bind_lift_Ok, P. reflexivity.
Qed.

Lemma missing_file_is_client_error_witness :
  api_tag Sample.X Sample.ready 0
    (Sample.json_request
       (PDict [(py "file_key", PStr (py "dog.png"));
               (py "image_url", PStr Sample.missing_url)]))
  = ([EvExists (py "/srv/data/dog.png")],
     error_response 400 (py "file not found: /srv/data/dog.png")).
Proof.
  apply (missing_file_is_client_error Sample.X Sample.ready 0
           (Sample.json_request
              (PDict [(py "file_key", PStr (py "dog.png"));
                      (py "image_url", PStr Sample.missing_url)]))
           [(py "file_key", PStr (py "dog.png"));
            (py "image_url", PStr Sample.missing_url)]
           (py "dog.png") (float_literal 4 1)); reflexivity.
Defined.

(** X13: a JSON body that is falsy ([null], [false], [0], [0.0], [""],
    [[]], [{}]) is handled as the empty object: 400 with "missing
    file_key or image_url", and nothing outside is touched. *)
Theorem falsy_body_is_empty_object X g call req v :
  is_json req = true ->
  get_json req = Ok v ->
  truthy v = false ->
  api_tag X g call req
  = ([], error_response 400 (py "missing file_key or image_url")).
Proof.
  intros J G F.
  unfold api_tag, api_tag_try.
  rewrite (resolve_image_json X g req v [] J G) by (rewrite F; reflexivity).
  reflexivity.
Qed.

Lemma falsy_body_is_empty_object_witness :
  api_tag Sample.X Sample.ready 0 (Sample.json_request (PList []))
  = ([], error_response 400 (py "missing file_key or image_url")).
Proof.
  apply (falsy_body_is_empty_object Sample.X Sample.ready 0
           (Sample.json_request (PList [])) (PList [])); reflexivity.
Defined.

(** X14: a JSON request without a usable object is a server error,
    not a client error: when [get_json] raises (as on a malformed body)
    the answer is 500 with the text of that exception, and when the
    body is a non-empty list or string, a non-zero number or [true], it
    is the 500 of the AttributeError of [data.get]. *)
Theorem unusable_json_body_is_server_error X g call req :
  is_json req = true ->
  (forall e, get_json req = Err e ->
     api_tag X g call req
     = ([EvLogException e], error_response 500 (exn_msg e))) /\
  (forall v, get_json req = Ok v -> truthy v = true ->
     (forall d, v <> PDict d) ->
     api_tag X g call req
     = ([EvLogException
           (Exn "AttributeError"
              (py "'" ++ type_name v ++ py "' object has no attribute 'get'"))],
        error_response 500
          (py "'" ++ type_name v ++ py "' object has no attribute 'get'"))).
Proof.
  intros J. split.
  - intros e G. unfold api_tag, api_tag_try, resolve_image.
    rewrite J, G. reflexivity.
  - intros v G T N. unfold api_tag, api_tag_try, resolve_image.
    rewrite J, G, h_bind_lift_Ok, T.
    destruct v; try reflexivity.
    exfalso. eapply N; reflexivity.
Qed.

Lemma unusable_json_body_is_server_error_witness :
  api_tag Sample.X Sample.ready 0 (Sample.json_request (PList [PInt 1]))
  = ([EvLogException
        (Exn "AttributeError" (py "'list' object has no attribute 'get'"))],
     error_response 500 (py "'list' object has no attribute 'get'")).
Proof.
  apply (proj2 (unusable_json_body_is_server_error Sample.X Sample.ready 0
                  (Sample.json_request (PList [PInt 1])) eq_refl)
           (PList [PInt 1]) eq_refl eq_refl).
  intros d H. discriminate H.
Defined.

(** ** The preprocessor, continued *)

Lemma paste_at_length {A B} (f : A -> B -> A) (dst : list A) :
  forall src off, length (paste_at f dst src off) = length dst.
Proof.
  induction dst as [|d dst IH]; intros src off; [reflexivity|].
  destruct off as [|k]; [destruct src as [|s src]|]; simpl; auto.
Qed.

Lemma paste_at_Forall {A B} (P : A -> Prop) (Q : B -> Prop)
    (f : A -> B -> A) :
  (forall d s, P d -> Q s -> P (f d s)) ->
  forall dst src off,
    Forall P dst -> Forall Q src -> Forall P (paste_at f dst src off).
Proof.
  intros Hf. induction dst as [|d dst IH]; intros src off HP HQ;
    [constructor|].
  inversion HP; subst.
  destruct off as [|k]; [destruct src as [|s src]|]; simpl.
  - assumption.
  - inversion HQ; subst. constructor; auto.
  - constructor; auto.
Qed.

Lemma image_wf_nonneg (im : Image) :
  image_wf im -> 0 <= height im /\ (rows im <> [] -> 0 <= width im).
Proof.
  intros [Hr Hc]. split; [lia|].
  destruct (rows im) as [|r rs]; [congruence|].
  intros _. inversion Hc; subst. lia.
Qed.

Lemma square_pad_wf (image : Image) :
  image_wf image ->
  image_wf (square_pad image) /\
  size (square_pad image)
  = (Z.max (width image) (height image), Z.max (width image) (height image)).
Proof.
  intros Hwf. split; [|reflexivity].
  unfold image_wf, square_pad, paste, Image_new, width, height.
  cbn [rows size fst snd].
  set (m := Z.max (fst (size image)) (snd (size image))).
  split.
  - rewrite paste_at_length, repeat_length.
    destruct (image_wf_nonneg image Hwf) as [Hh _].
    unfold height in Hh. lia.
  - apply (paste_at_Forall _ (fun _ => True)).
    + intros d s Hd _. rewrite paste_at_length. exact Hd.
    + apply Forall_forall. intros r Hr. apply repeat_spec in Hr. subst r.
      rewrite repeat_length.
      destruct (image_wf_nonneg image Hwf) as [Hh _].
      unfold height in Hh. lia.
    + apply Forall_forall. auto.
Qed.

Lemma model_input_shape (canvas : Image) :
  image_wf canvas ->
  tensor_shape (model_input canvas) 3
    (Z.to_nat (height canvas)) (Z.to_nat (width canvas)).
Proof.
  intros [Hr Hc].
  unfold model_input, normalize, pil_to_tensor, tensor_map.
  rewrite as_f32_MEAN, as_f32_STD. unfold MEAN32, STD32.
  cbn [combine map map2 fst snd].
  assert (Hch : forall (f : rgb -> Z) (g : f32 -> f32),
            length (map (map g) (map (map (fun v => f32_div (f32_of_uint8 v) f255))
                                     (map (map f) (rows canvas))))
            = Z.to_nat (height canvas) /\
            Forall (fun r => length r = Z.to_nat (width canvas))
              (map (map g) (map (map (fun v => f32_div (f32_of_uint8 v) f255))
                                (map (map f) (rows canvas))))).
  { intros f g. split.
    - rewrite !length_map. lia.
    - rewrite !Forall_map. eapply Forall_impl; [|exact Hc].
      intros r Hlen. cbv beta in *. rewrite !length_map. lia. }
  split; [reflexivity|].
  repeat constructor; apply Hch.
Qed.

(** X15: when the resampler returns images of the size it was asked
    for, the tensor [_prepare_image] returns has shape
    (3, target, target), whatever the size of the input image. *)
Theorem prepare_image_shape X image target t :
  image_wf image ->
  (forall canvas resized,
     resize_bicubic X canvas (target, target) = Ok resized ->
     image_wf resized /\ size resized = (target, target)) ->
  _prepare_image X image target = Ok t ->
  tensor_shape t 3 (Z.to_nat target) (Z.to_nat target).
Proof.
  intros Hwf Hresize. rewrite _prepare_image_unfold.
  destruct (Z.eqb_spec (Z.max (width image) (height image)) target)
    as [Hm|Hm]; cbn [negb res_bind].
  - intros [= <-].
    destruct (square_pad_wf image Hwf) as [Hwf' Hsize].
    pose proof (model_input_shape _ Hwf') as S.
    unfold width, height in S. rewrite Hsize in S. cbn [fst snd] in S.
    fold (width image) (height image) in S. rewrite Hm in S. exact S.
  - destruct (resize_bicubic X (square_pad image) (target, target))
      as [resized|e] eqn:R; cbn [res_bind]; [|discriminate].
    intros [= <-].
    destruct (Hresize _ _ R) as [Hwf' Hsize].
    pose proof (model_input_shape _ Hwf') as S.
    unfold width, height in S. rewrite Hsize in S. exact S.
Qed.

Lemma prepare_image_shape_witness :
  exists t, _prepare_image Sample.X Sample.wide 2 = Ok t /\
            tensor_shape t 3 2 2.
Proof.
  destruct (_prepare_image Sample.X Sample.wide 2) as [t|e] eqn:E;
    [|vm_compute in E; discriminate E].
  exists t. split; [reflexivity|].
  apply (prepare_image_shape Sample.X Sample.wide 2 t).
  - split; [reflexivity | repeat constructor].
  - intros canvas resized H. cbn in H. injection H as <-.
    split; [split; [reflexivity | repeat constructor] | reflexivity].
  - exact E.
Defined.

Lemma paste_at_replace {A} (dst src : list A) :
  length dst = length src -> paste_at (fun _ p => p) dst src 0 = src.
Proof.
  revert src; induction dst as [|d dst IH]; intros [|s src]; simpl;
    try discriminate; [reflexivity|].
  intros [= H]. rewrite IH by assumption. reflexivity.
Qed.

Lemma paste_rows_replace {A} (blank : list A) (src : list (list A)) :
  Forall (fun r => length r = length blank) src ->
  paste_at (fun drow srow => paste_at (fun _ p => p) drow srow 0)
           (repeat blank (length src)) src 0 = src.
Proof.
  induction src as [|r src IH]; intros H; [reflexivity|].
  inversion H; subst. simpl.
  rewrite paste_at_replace by congruence.
  rewrite IH by assumption. reflexivity.
Qed.

Lemma square_pad_square (image : Image) :
  image_wf image -> width image = height image ->
  square_pad image = image.
Proof.
  intros [Hr Hc] Hsq.
  unfold square_pad, paste, Image_new.
  rewrite Hsq, Z.max_id, Z.sub_diag. cbn [Z.div Z.to_nat fst snd rows size].
  change (0 / 2) with 0. cbn [Z.to_nat].
  destruct image as [[w h] rs]. unfold width, height in *.
  cbn [size rows fst snd] in *. subst w.
  f_equal.
  replace (Z.to_nat h) with (length rs) by lia.
  apply paste_rows_replace.
  eapply Forall_impl; [|exact Hc].
  intros r Hlen. cbv beta in Hlen. rewrite repeat_length. lia.
Qed.

(** X16: a square image that already has the target size is neither
    padded nor resampled: whatever the resampler, the result is the
    image itself, value by value scaled and normalised. *)
Theorem prepare_image_square_at_target X image :
  image_wf image -> width image = height image ->
  exists t,
    _prepare_image X image (width image) = Ok t /\
    forall ch y x, (ch < 3)%nat ->
      tensor_at t ch y x =
      option_map (fun p => normalized_value ch (channel ch p))
                 (getpixel image (Z.of_nat x) (Z.of_nat y)).
Proof.
  intros Hwf Hsq. exists (model_input image).
  rewrite _prepare_image_unfold, <- Hsq, Z.max_id, Z.eqb_refl.
  cbn [negb res_bind].
  rewrite (square_pad_square image Hwf Hsq).
  split; [reflexivity|].
  intros ch y x Hch. apply tensor_at_model_input; assumption.
Qed.

Lemma prepare_image_square_at_target_witness :
  exists t,
    _prepare_image Sample.X Sample.square (width Sample.square) = Ok t /\
    forall ch y x, (ch < 3)%nat ->
      tensor_at t ch y x =
      option_map (fun p => normalized_value ch (channel ch p))
                 (getpixel Sample.square (Z.of_nat x) (Z.of_nat y)).
Proof.
  apply (prepare_image_square_at_target Sample.X Sample.square).
  - split; [reflexivity | repeat constructor].
  - reflexivity.
Defined.

Lemma normalized_range_table :
  forallb (fun c => forallb (fun v => normalized_in_range c (Z.of_nat v))
                            (seq 0 256))
          (seq 0 3) = true.
Proof. vm_compute. reflexivity. Qed.

Lemma normalized_value_range (c : nat) (v : Z) :
  (c < 3)%nat -> is_byte v -> normalized_in_range c v = true.
Proof.
  intros Hc Hv.
  pose proof normalized_range_table as T.
  rewrite forallb_forall in T.
  specialize (T c ltac:(apply in_seq; lia)).
  rewrite forallb_forall in T.
  specialize (T (Z.to_nat v) ltac:(apply in_seq; unfold is_byte in Hv; lia)).
  rewrite Z2Nat.id in T by (unfold is_byte in Hv; lia).
  exact T.
Qed.

Lemma square_pad_pixels_valid (image : Image) :
  pixels_valid image -> pixels_valid (square_pad image).
Proof.
  intros Hv. unfold pixels_valid, square_pad, paste, Image_new.
  cbn [rows size fst snd].
  apply (paste_at_Forall _ (Forall pixel_valid)).
  - intros d s Hd Hs.
    apply (paste_at_Forall _ pixel_valid); auto.
  - apply Forall_forall. intros r Hr. apply repeat_spec in Hr. subst r.
    apply Forall_forall. intros p Hp. apply repeat_spec in Hp. subst p.
    repeat split; unfold is_byte; simpl; lia.
  - exact Hv.
Qed.

Lemma getpixel_valid (im : Image) (x y : Z) (p : rgb) :
  pixels_valid im -> getpixel im x y = Some p -> pixel_valid p.
Proof.
  intros Hv. unfold getpixel.
  destruct ((x <? 0) || (y <? 0)); [discriminate|].
  destruct (nth_error (rows im) (Z.to_nat y)) as [r|] eqn:R; [|discriminate].
  intros Hp. apply nth_error_In in R. apply nth_error_In in Hp.
  unfold pixels_valid in Hv. rewrite Forall_forall in Hv.
  specialize (Hv r R). rewrite Forall_forall in Hv. auto.
Qed.

Lemma channel_is_byte (c : nat) (p : rgb) :
  pixel_valid p -> is_byte (channel c p).
Proof.
  intros (H0 & H1 & H2). destruct c as [|[|c]]; assumption.
Qed.

(** X17: on an image whose channels are bytes (and a resampler that
    returns such images when given one), every value of the tensor
    [_prepare_image] returns is a number, never NaN or an infinity, and
    lies between the normalised values of the bytes 0 and 255 of its
    channel. *)
Theorem prepare_image_values_in_range X image target t :
  pixels_valid image ->
  (forall canvas resized,
     pixels_valid canvas ->
     resize_bicubic X canvas (target, target) = Ok resized ->
     pixels_valid resized) ->
  _prepare_image X image target = Ok t ->
  forall ch y x v, (ch < 3)%nat ->
    tensor_at t ch y x = Some v ->
    is_finite v = true /\
    SFleb (normalized_value ch 0) v = true /\
    SFleb v (normalized_value ch 255) = true.
Proof.
  intros Hv Hresize. rewrite _prepare_image_unfold.
  assert (Hfinal : forall final, pixels_valid final ->
            forall ch y x v, (ch < 3)%nat ->
              tensor_at (model_input final) ch y x = Some v ->
              is_finite v = true /\
              SFleb (normalized_value ch 0) v = true /\
              SFleb v (normalized_value ch 255) = true).
  { intros final Hf ch y x v Hch. rewrite tensor_at_model_input by assumption.
    destruct (getpixel final (Z.of_nat x) (Z.of_nat y)) as [p|] eqn:G;
      [|discriminate].
    cbn [option_map]. intros [= <-].
    pose proof (normalized_value_range ch (channel ch p) Hch
                  (channel_is_byte ch p (getpixel_valid _ _ _ _ Hf G))) as R.
    unfold normalized_in_range in R.
    apply andb_true_iff in R. destruct R as [R R3].
    apply andb_true_iff in R. destruct R as [R1 R2]. auto. }
  pose proof (square_pad_pixels_valid image Hv) as Hpad.
  destruct (negb _); cbn [res_bind].
  - destruct (resize_bicubic X (square_pad image) (target, target))
      as [resized|e] eqn:R; cbn [res_bind]; [|discriminate].
    intros [= <-]. apply Hfinal. eapply Hresize; eassumption.
  - intros [= <-]. apply Hfinal. assumption.
Qed.

Lemma white_valid : pixel_valid white.
Proof. repeat split; unfold is_byte; simpl; lia. Qed.

Lemma prepare_image_values_in_range_witness :
  exists t v,
    _prepare_image Sample.X Sample.wide 2 = Ok t /\
    tensor_at t 1 1 1 = Some v /\
    is_finite v = true /\
    SFleb (normalized_value 1 0) v = true /\
    SFleb v (normalized_value 1 255) = true.
Proof.
  destruct (_prepare_image Sample.X Sample.wide 2) as [t|e] eqn:E;
    [|vm_compute in E; discriminate E].
  destruct (tensor_at t 1 1 1) as [v|] eqn:V.
  - exists t, v. split; [reflexivity | split; [exact V|]].
    apply (prepare_image_values_in_range Sample.X Sample.wide 2 t)
      with (ch := 1%nat) (y := 1%nat) (x := 1%nat).
    + repeat constructor; unfold is_byte; simpl; lia.
    + intros canvas resized Hc H.
      change (Sample.flat_resize canvas (2, 2) = Ok resized) in H.
      unfold Sample.flat_resize in H.
      change ((fst (2, 2) <? 1) || (snd (2, 2) <? 1)) with false in H.
      cbv iota in H. injection H as <-.
      unfold pixels_valid, Image_new. cbn [rows].
      apply Forall_forall. intros r Hr. apply repeat_spec in Hr. subst r.
      apply Forall_forall. intros p Hp. apply repeat_spec in Hp. subst p.
      destruct (getpixel canvas 0 0) as [p|] eqn:G;
        [exact (getpixel_valid _ _ _ _ Hc G) | exact white_valid].
    + exact E.
    + lia.
    + exact V.
  - exfalso. vm_compute in E. injection E as <-. vm_compute in V.
    discriminate V.
Defined.

(** ** The vocabulary loader *)

Lemma lstrip_head (s : pystr) :
  match lstrip s with
  | [] => True
  | c :: _ => is_space c = false
  end.
Proof.
  induction s as [|c s IH]; simpl; [exact I|].
  destruct (is_space c) eqn:E; [exact IH | exact E].
Qed.

Lemma lstrip_app (a b : pystr) :
  lstrip (a ++ b) =
  match lstrip a with
  | [] => lstrip b
  | _ => lstrip a ++ b
  end.
Proof.
  induction a as [|c a IH]; simpl; [reflexivity|].
  destruct (is_space c); [exact IH | reflexivity].
Qed.

Lemma rstrip_cons (c : N) (s : pystr) :
  rstrip (c :: s) =
  match rstrip s with
  | [] => if is_space c then [] else [c]
  | _ => c :: rstrip s
  end.
Proof.
  unfold rstrip. simpl rev. rewrite lstrip_app.
  destruct (lstrip (rev s)) as [|x l]; simpl.
  - destruct (is_space c); reflexivity.
  - rewrite rev_app_distr. simpl.
    destruct (rev l ++ [x]) eqn:E; [|reflexivity].
    destruct (rev l); discriminate.
Qed.

Lemma rstrip_idempotent (s : pystr) : rstrip (rstrip s) = rstrip s.
Proof.
  induction s as [|c s IH]; [reflexivity|].
  rewrite rstrip_cons.
  destruct (rstrip s) as [|x l] eqn:R.
  - destruct (is_space c) eqn:E; [reflexivity|].
    rewrite rstrip_cons. change (rstrip []) with (@nil N). rewrite E.
    reflexivity.
  - rewrite rstrip_cons, IH. reflexivity.
Qed.

Lemma rstrip_keeps_head (c : N) (s : pystr) :
  is_space c = false -> exists s', rstrip (c :: s) = c :: s'.
Proof.
  intros E. rewrite rstrip_cons, E.
  destruct (rstrip s); eexists; reflexivity.
Qed.

Lemma strip_idempotent (s : pystr) : strip (strip s) = strip s.
Proof.
  unfold strip. pose proof (lstrip_head s) as H.
  destruct (lstrip s) as [|c u]; [reflexivity|].
  destruct (rstrip_keeps_head c u H) as [s' E].
  rewrite E at 1. simpl lstrip. rewrite H, <- E.
  apply rstrip_idempotent.
Qed.

Lemma lstrip_Forall (P : N -> Prop) (s : pystr) :
  Forall P s -> Forall P (lstrip s).
Proof.
  induction 1 as [|c s Hc Hs IH]; simpl; [constructor|].
  destruct (is_space c); [exact IH | constructor; assumption].
Qed.

Lemma strip_Forall (P : N -> Prop) (s : pystr) :
  Forall P s -> Forall P (strip s).
Proof.
  intros H. unfold strip, rstrip.
  apply Forall_rev, lstrip_Forall, Forall_rev, lstrip_Forall. exact H.
Qed.

Lemma splitlines_from_cons (cur : pystr) (c : N) (s : pystr) :
  splitlines_from cur (c :: s) =
  if is_linebreak c then rev cur :: splitlines_from [] (after_boundary c s)
  else splitlines_from (c :: cur) s.
Proof.
  cbn [splitlines_from]. destruct (is_linebreak c); [|reflexivity].
  unfold after_boundary.
  destruct c as [|p]; [reflexivity|].
  do 5 (try (destruct p as [p|p|]; try reflexivity)).
  destruct s as [|c' s']; [reflexivity|].
  destruct c' as [|q]; [reflexivity|].
  do 5 (try (destruct q as [q|q|]; try reflexivity)).
Qed.

Lemma after_boundary_length (c : N) (s : pystr) :
  (length (after_boundary c s) <= length s)%nat.
Proof.
  unfold after_boundary. destruct (c =? 13)%N; [|lia].
  destruct s as [|c' s']; [lia|].
  destruct (c' =? 10)%N; simpl; lia.
Qed.

Lemma splitlines_from_no_linebreak (n : nat) :
  forall s cur,
    (length s <= n)%nat ->
    Forall (fun c => is_linebreak c = false) cur ->
    Forall (Forall (fun c => is_linebreak c = false)) (splitlines_from cur s).
Proof.
  assert (Hnil : forall cur,
            Forall (fun c => is_linebreak c = false) cur ->
            Forall (Forall (fun c => is_linebreak c = false))
                   (splitlines_from cur [])).
  { intros cur Hcur. cbn [splitlines_from].
    destruct cur; [constructor|].
    constructor; [apply Forall_rev; exact Hcur | constructor]. }
  induction n as [|n IH]; intros [|c s] cur Hlen Hcur;
    try (apply Hnil; assumption); [simpl in Hlen; lia|].
  rewrite splitlines_from_cons. destruct (is_linebreak c) eqn:E.
  - constructor; [apply Forall_rev; exact Hcur|].
    apply IH; [|constructor].
    pose proof (after_boundary_length c s). simpl in Hlen. lia.
  - apply IH; [simpl in Hlen; lia | constructor; assumption].
Qed.

(** X18: every tag [initialize_model] keeps is a non-empty string that
    [strip] leaves unchanged (no white space at either end) and that
    holds no line boundary. *)
Theorem load_tags_are_clean (text tg : pystr) :
  In tg (load_tags text) ->
  tg <> [] /\ strip tg = tg /\
  Forall (fun c => is_linebreak c = false) tg.
Proof.
  unfold load_tags. intros Hin.
  apply in_map_iff in Hin. destruct Hin as [ln [<- Hin]].
  apply filter_In in Hin. destruct Hin as [Hin Hne].
  split; [|split].
  - destruct (strip ln); [discriminate | discriminate].
  - apply strip_idempotent.
  - apply strip_Forall.
    pose proof (splitlines_from_no_linebreak (length text) text []
                  (Nat.le_refl _) (Forall_nil _)) as H.
    rewrite Forall_forall in H. apply H. exact Hin.
Qed.

Lemma load_tags_are_clean_witness :
  py "b" <> [] /\ strip (py "b") = py "b" /\
  Forall (fun c => is_linebreak c = false) (py "b").
Proof.
  apply (load_tags_are_clean Sample.vocabulary_text (py "b")).
  vm_compute. auto.
Defined.

Lemma splitlines_from_line (tg rest cur : pystr) :
  Forall (fun c => is_linebreak c = false) tg ->
  splitlines_from cur (tg ++ 10%N :: rest)
  = (rev cur ++ tg) :: splitlines_from [] rest.
Proof.
  revert cur. induction tg as [|c tg IH]; intros cur H.
  - rewrite app_nil_r. reflexivity.
  - inversion H; subst. cbn [app]. rewrite splitlines_from_cons.
    replace (is_linebreak c) with false by congruence.
    rewrite IH by assumption. cbn [rev]. rewrite <- app_assoc. reflexivity.
Qed.

Lemma splitlines_vocabulary_file (tags : list pystr) :
  Forall clean_tag tags -> splitlines (vocabulary_file tags) = tags.
Proof.
  unfold splitlines, vocabulary_file.
  induction 1 as [|tg tags (_ & _ & Hlb) _ IH]; [reflexivity|].
  cbn [map concat]. rewrite <- app_assoc. cbn [app].
  rewrite splitlines_from_line by assumption.
  rewrite IH. reflexivity.
Qed.

(** X19: a vocabulary written one tag per line loads back unchanged,
    repetitions included, when every tag is clean (non-empty, without
    white space at its ends, without line boundary). *)
Theorem load_tags_reads_back (tags : list pystr) :
  Forall clean_tag tags -> load_tags (vocabulary_file tags) = tags.
Proof.
  intros H. unfold load_tags. rewrite (splitlines_vocabulary_file tags H).
  induction H as [|tg tags (Hne & Hs & _) _ IH]; [reflexivity|].
  cbn [filter]. rewrite Hs.
  destruct tg as [|c tg]; [congruence|].
  cbn [map]. rewrite Hs, IH. reflexivity.
Qed.

Lemma load_tags_reads_back_witness :
  load_tags (vocabulary_file [py "long hair"; py "1girl"; py "long hair"])
  = [py "long hair"; py "1girl"; py "long hair"].
Proof.
  apply (load_tags_reads_back [py "long hair"; py "1girl"; py "long hair"]).
  repeat constructor; try discriminate; vm_compute; reflexivity.
Defined.

(** X20: when [initialize_model] ends without an exception, the model
    was loaded and moved to the device [_pick_device] chose, the
    vocabulary file was found and read, and the globals hold exactly
    that model, the tags of that file, that device and the threshold
    they had; [/health] then reports "ready" and the number of tags. *)
Theorem initialize_model_success X g :
  snd (initialize_model X g) = None ->
  exists m0 m text,
    load_model X (env_model_dir X) = Ok m0 /\
    to_device_eval X m0 (_pick_device X) = Ok m /\
    path_exists X (path_join X (env_model_dir X) (py "top_tags.txt"))
    = Ok true /\
    read_text X (path_join X (env_model_dir X) (py "top_tags.txt"))
    = Ok text /\
    fst (initialize_model X g)
    = mkGlobals (Some m) (Some (load_tags text)) (_pick_device X)
                (THRESHOLD_DEFAULT g) /\
    health (fst (initialize_model X g))
    = mkResponse 200 (PDict
        [ (py "status", PStr (py "ok"));
          (py "services", PDict [(py "joytag", PStr (py "ready"))]);
          (py "device", PStr (_pick_device X));
          (py "tags", PInt (Z.of_nat (length (load_tags text))));
          (py "version", PStr (py "cb-joytag-bridge-1")) ]).
Proof.
  unfold initialize_model. cbn [model top_tags device THRESHOLD_DEFAULT].
  destruct (load_model X (env_model_dir X)) as [m0|e] eqn:L; [|discriminate].
  destruct (to_device_eval X m0 (_pick_device X)) as [m|e] eqn:D;
    [|discriminate].
  destruct (path_exists X _) as [[|]|e] eqn:P; try discriminate.
  destruct (read_text X _) as [text|e] eqn:R; [|discriminate].
  intros _. exists m0, m, text.
  split; [reflexivity|]. split; [exact D|].
  split; [reflexivity|]. split; [reflexivity|]. split; [reflexivity|].
  unfold health. cbn [model top_tags device fst].
  destruct (load_tags text); reflexivity.
Qed.

Lemma initialize_model_success_witness :
  exists m0 m text,
    load_model Sample.X (env_model_dir Sample.X) = Ok m0 /\
    to_device_eval Sample.X m0 (_pick_device Sample.X) = Ok m /\
    path_exists Sample.X
      (path_join Sample.X (env_model_dir Sample.X) (py "top_tags.txt"))
    = Ok true /\
    read_text Sample.X
      (path_join Sample.X (env_model_dir Sample.X) (py "top_tags.txt"))
    = Ok text /\
    fst (initialize_model Sample.X Sample.ready)
    = mkGlobals (Some m) (Some (load_tags text)) (_pick_device Sample.X)
                (THRESHOLD_DEFAULT Sample.ready) /\
    health (fst (initialize_model Sample.X Sample.ready))
    = mkResponse 200 (PDict
        [ (py "status", PStr (py "ok"));
          (py "services", PDict [(py "joytag", PStr (py "ready"))]);
          (py "device", PStr (_pick_device Sample.X));
          (py "tags", PInt (Z.of_nat (length (load_tags text))));
          (py "version", PStr (py "cb-joytag-bridge-1")) ]).
Proof.
  apply (initialize_model_success Sample.X Sample.ready). reflexivity.
Defined.

(** X21: whatever happens in [initialize_model], the device is the one
    [_pick_device] chose and the default threshold is untouched; when
    it raises, the vocabulary is left as it was, so that a module whose
    initialisation failed has no tags. *)
Theorem initialize_model_failure_keeps_vocabulary X g :
  device (fst (initialize_model X g)) = _pick_device X /\
  THRESHOLD_DEFAULT (fst (initialize_model X g)) = THRESHOLD_DEFAULT g /\
  (forall e, snd (initialize_model X g) = Some e ->
     top_tags (fst (initialize_model X g)) = top_tags g) /\
  (forall m0 m,
     load_model X (env_model_dir X) = Ok m0 ->
     to_device_eval X m0 (_pick_device X) = Ok m ->
     path_exists X (path_join X (env_model_dir X) (py "top_tags.txt"))
     = Ok false ->
     snd (initialize_model X g)
     = Some (Exn "FileNotFoundError"
               (py "top_tags.txt not found in " ++ env_model_dir X
                ++ py ". Download JoyTag models first."))).
Proof.
  split; [|split; [|split]].
  - unfold initialize_model. cbn [model top_tags device THRESHOLD_DEFAULT].
    destruct (load_model X _); [|reflexivity].
    destruct (to_device_eval X _ _); [|reflexivity].
    destruct (path_exists X _) as [[|]|]; try reflexivity.
    destruct (read_text X _); reflexivity.
  - unfold initialize_model. cbn [model top_tags device THRESHOLD_DEFAULT].
    destruct (load_model X _); [|reflexivity].
    destruct (to_device_eval X _ _); [|reflexivity].
    destruct (path_exists X _) as [[|]|]; try reflexivity.
    destruct (read_text X _); reflexivity.
  - intros e. unfold initialize_model.
    cbn [model top_tags device THRESHOLD_DEFAULT].
    destruct (load_model X _); [|reflexivity].
    destruct (to_device_eval X _ _); [|reflexivity].
    destruct (path_exists X _) as [[|]|]; try reflexivity.
    destruct (read_text X _); [discriminate | reflexivity].
  - intros m0 m L D P. unfold initialize_model.
    cbn [model top_tags device THRESHOLD_DEFAULT].
    rewrite L, D, P. reflexivity.
Qed.

Lemma initialize_model_failure_keeps_vocabulary_witness :
  top_tags (fst (initialize_model
                   (mkExternals
                      Sample.parse_half (py "/srv/models") (py "/srv/data")
                      false false None
                      (fun _ => Err (Exn "FileNotFoundError" (py "model.safetensors")))
                      (fun m _ => Ok m) (fun a b => a ++ py "/" ++ b)
                      (fun _ => Ok false) (fun _ => Ok [])
                      (fun _ => Ok Sample.square) (fun _ => Ok Sample.wide)
                      Sample.fetch Sample.flat_resize Sample.step_sigmoid 0)
                   (mkGlobals None None (py "cpu") Sample.half)))
  = None.
Proof.
  apply (proj1 (proj2 (proj2 (initialize_model_failure_keeps_vocabulary
           (mkExternals
              Sample.parse_half (py "/srv/models") (py "/srv/data")
              false false None
              (fun _ => Err (Exn "FileNotFoundError" (py "model.safetensors")))
              (fun m _ => Ok m) (fun a b => a ++ py "/" ++ b)
              (fun _ => Ok false) (fun _ => Ok [])
              (fun _ => Ok Sample.square) (fun _ => Ok Sample.wide)
              Sample.fetch Sample.flat_resize Sample.step_sigmoid 0)
           (mkGlobals None None (py "cpu") Sample.half))))
         (Exn "FileNotFoundError" (py "model.safetensors"))).
  reflexivity.
Defined.

(** ** The pipeline and the network *)

(** X22: with a loaded model and vocabulary and a prepared image, a
    tagging run succeeds when the first row of the network's output has
    at least as many scores as the vocabulary has tags, and fails with
    the IndexError of the first missing score when it has fewer. *)
Theorem predict_image_needs_enough_outputs X g call img threshold m tags t
    row rest :
  model g = Some m ->
  top_tags g = Some tags ->
  _prepare_image X img (image_size m) = Ok t ->
  forward m call [t] = Ok (row :: rest) ->
  ((length tags <= length row)%nat ->
     exists p s, _predict_image X g call img threshold = Ok (p, s)) /\
  ((length row < length tags)%nat ->
     _predict_image X g call img threshold
     = Err (tensor_index_error (length row))).
Proof.
  intros M T P F. unfold _predict_image, _predict_tensor.
  rewrite M. cbn [res_bind]. rewrite P. cbn [res_bind].
  rewrite F. cbn [res_bind map]. rewrite T. cbn [res_bind].
  split; intros Hlen.
  - destruct (scores_upto_total tags (map (sigmoid X) row) (length tags))
      as [d Hd]; [lia | rewrite length_map; lia |].
    unfold build_scores. rewrite Hd. cbn [res_bind].
    eexists. eexists. reflexivity.
  - unfold build_scores.
    rewrite scores_upto_short by (rewrite length_map; lia).
    rewrite length_map. reflexivity.
Qed.

Lemma predict_image_needs_enough_outputs_witness :
  _predict_image Sample.X
    (mkGlobals (Some Sample.net)
       (Some [py "a"; py "b"; py "c"; py "d"]) (py "cpu") Sample.half)
    0 Sample.square Sample.half
  = Err (tensor_index_error 3).
Proof.
  refine (proj2 (predict_image_needs_enough_outputs Sample.X
            (mkGlobals (Some Sample.net)
               (Some [py "a"; py "b"; py "c"; py "d"]) (py "cpu") Sample.half)
            0 Sample.square Sample.half Sample.net
            [py "a"; py "b"; py "c"; py "d"]
            _ [ S754_finite false 8388608 (-23); S754_zero false;
                S754_finite true 8388608 (-23) ] []
            eq_refl eq_refl _ _) _).
  - vm_compute. reflexivity.
  - reflexivity.
  - simpl. lia.
Defined.

(** X23: the handler rejects a fetched response on 4xx and 5xx only: a
    response with any other status, 2xx or not, has its content decoded
    as the image. *)
Theorem fetched_content_is_decoded X g call req d u f r :
  is_json req = true ->
  get_json req = Ok (PDict d) ->
  dict_get d (py "file_key") = None ->
  dict_get d (py "image_url") = Some u ->
  py_float X match dict_get d (py "threshold") with
             | Some w => w
             | None => PFloat (THRESHOLD_DEFAULT g)
             end = Ok f ->
  requests_get X u 30 = Ok r ->
  status_code r < 400 \/ 600 <= status_code r ->
  exists rest,
    fst (api_tag X g call req)
    = EvGet u 30 :: EvOpenBytes (content r) :: rest.
Proof.
  intros J G FK URL T R S.
  rewrite api_tag_unfold.
  rewrite (resolve_image_json X g req _ d J G (dict_get_Some_truthy _ _ _ URL)).
  unfold resolve_json. rewrite T, h_bind_lift_Ok, FK, URL, R.
  rewrite h_bind_perform_Ok, (raise_for_status_accepts r S), h_bind_lift_Ok.
  destruct (open_bytes X (content r)) as [img|e]; run_handler; cbn [fst snd].
  - destruct (_predict_image X g call img f) as [[tags scores]|e];
      eexists; reflexivity.
  - eexists; reflexivity.
Qed.

Lemma fetched_content_is_decoded_witness :
  exists rest,
    fst (api_tag Sample.X Sample.ready 0
           (Sample.json_request (PDict [(py "image_url", PStr (py "http://img.test/cat.png"))])))
    = EvGet (PStr (py "http://img.test/cat.png")) 30
      :: EvOpenBytes [137%N; 80%N; 78%N; 71%N] :: rest.
Proof.
  apply (fetched_content_is_decoded Sample.X Sample.ready 0
           (Sample.json_request
              (PDict [(py "image_url", PStr (py "http://img.test/cat.png"))]))
           [(py "image_url", PStr (py "http://img.test/cat.png"))]
           (PStr (py "http://img.test/cat.png")) (float_literal 4 1)
           (mkHttpResponse 200 (py "OK") (py "http://img.test/cat.png")
              [137%N; 80%N; 78%N; 71%N]));
    try reflexivity.
  left. reflexivity.
Defined.
